(** * ETLSyncConfig: the configuration loader of main.py

    A shallow embedding of [ENV], [ETLSyncConfig.__init__], [_db_info],
    [_table_info], [_load_environment_config], the read-only properties
    and [main], followed by the properties of the loader.

    Python values are untyped, so the document tree is one inductive type
    [value]; a method call on a value that has no such method raises
    [AttributeError], exactly as the interpreter does.  Exceptions are
    modelled by the type [exception] and a computation that may raise by
    [result]. *)

From stdpp Require Import base strings gmap list pretty.
From Stdlib Require Import ZArith Ascii String.

Open Scope string_scope.

Set Warnings "-register-all,-clear-no-such-hyp".

(** ** Python values produced by [yaml.safe_load] *)

(** A float is observed by the loader only through its truth value (false
    for 0.0 and -0.0) and the text [str()] gives for it. *)
Record pyfloat := PyFloat { float_nonzero : bool; float_text : string }.

(** Dictionaries are keyed by strings: the loader only ever looks up string
    keys.  Dates, byte strings and sets are left out. *)
Inductive value :=
| VNone
| VBool (b : bool)
| VInt (n : Z)
| VFloat (f : pyfloat)
| VStr (s : string)
| VList (l : list value)
| VDict (m : gmap string value).

(** ** Exceptions *)

Inductive exception :=
| FileNotFoundError (msg : string)
| OSError (msg : string)
| YAMLError (msg : string)
| ETLSyncConfigException (msg : string)
| KeyError (key : string)
| ValueError (msg : string)
| AttributeError (type attr : string)
| TypeError (type : string).

Inductive result (A : Type) :=
| Ok (a : A)
| Raise (e : exception).
Arguments Ok {A} a.
Arguments Raise {A} e.

#[global] Instance result_ret : MRet result := fun A a => Ok a.

#[global] Instance result_bind : MBind result := fun A B k r =>
  match r with
  | Ok a => k a
  | Raise e => Raise e
  end.

Definition is_raise {A} (r : result A) : Prop :=
  match r with Ok _ => False | Raise _ => True end.

(** ** Built-ins *)

(** [type(v).__name__] *)
Definition type_name (v : value) : string :=
  match v with
  | VNone => "NoneType"
  | VBool _ => "bool"
  | VInt _ => "int"
  | VFloat _ => "float"
  | VStr _ => "str"
  | VList _ => "list"
  | VDict _ => "dict"
  end.

(** [bool(v)], the test behind [if not v] *)
Definition truthy (v : value) : bool :=
  match v with
  | VNone => false
  | VBool b => b
  | VInt n => negb (n =? 0)%Z
  | VFloat f => float_nonzero f
  | VStr s => negb (String.eqb s "")
  | VList l => match l with [] => false | _ => true end
  | VDict m => match map_to_list m with [] => false | _ => true end
  end.

(** [isinstance(v, list)] and [isinstance(v, dict)] *)
Definition is_list (v : value) : bool :=
  match v with VList _ => true | _ => false end.

Definition is_dict (v : value) : bool :=
  match v with VDict _ => true | _ => false end.

(** [str.lower()].  A string is its sequence of bytes; the ASCII capitals
    are lowered and the other bytes are kept.  Python also lowers letters
    outside ASCII, but none of them becomes a text made of the letters of
    test, development, production or local, so [get_by_value] answers the
    same on every string. *)
Definition lower_ascii (c : ascii) : ascii :=
  let n := nat_of_ascii c in
  if (65 <=? n)%nat && (n <=? 90)%nat then ascii_of_nat (n + 32) else c.

Fixpoint lower (s : string) : string :=
  match s with
  | EmptyString => EmptyString
  | String c s' => String (lower_ascii c) (lower s')
  end.

(** ** class ENV(enum.Enum) *)

Inductive ENV := TEST | DEV | PROD | LOCAL.

Definition ENV_name (e : ENV) : string :=
  match e with
  | TEST => "TEST"
  | DEV => "DEV"
  | PROD => "PROD"
  | LOCAL => "LOCAL"
  end.

Definition ENV_value (e : ENV) : string :=
  match e with
  | TEST => "test"
  | DEV => "development"
  | PROD => "production"
  | LOCAL => "local"
  end.

(** Iteration over the class follows the order of definition. *)
Definition ENV_members : list ENV := [TEST; DEV; PROD; LOCAL].

Fixpoint get_by_value_loop (_env : string) (members : list ENV) : result ENV :=
  match members with
  | [] => Raise (ValueError "нет такого значения")
  | _value :: rest =>
      if String.eqb (lower (ENV_value _value)) _env then Ok _value
      else get_by_value_loop _env rest
  end.

Definition get_by_value (env : string) : result ENV :=
  let _env := lower env in
  get_by_value_loop _env ENV_members.

(** ** The schema types *)

Record SyncConfigDB := {
  host : string;
  port : string;
  database : string;
  user : string;
  password : string;
}.

Record SyncConfigTable := {
  schema : string;
  table : string;
  columns : list string;
  pk : list string;
}.

Record SyncConfigMapping := {
  source : SyncConfigTable;
  destination : SyncConfigTable;
}.

(** ** Dictionary access and iteration on an untyped value *)

(** [item.get(key, default)]: only a dict has the method; on any other
    object the attribute lookup raises. *)
Definition py_get (item : value) (key : string) (dflt : value) : result value :=
  match item with
  | VDict m => Ok (default dflt (m !! key))
  | _ => Raise (AttributeError (type_name item) "get")
  end.

(** [item[key]] with a string key. *)
Definition py_getitem (item : value) (key : string) : result value :=
  match item with
  | VDict m =>
      match m !! key with
      | Some v => Ok v
      | None => Raise (KeyError key)
      end
  | _ => Raise (TypeError (type_name item))
  end.

(** [iter(v)]: the items a [for] loop, a comprehension or [map] visits.  A
    dict yields its keys and a string its characters (all of them strings,
    in an order the loader cannot observe: the first one already has no
    [get]); the other values are not iterable. *)
Definition py_iter (v : value) : result (list value) :=
  match v with
  | VList l => Ok l
  | VDict m => Ok (VStr <$> (map_to_list m).*1)
  | VStr s => Ok ((λ c, VStr (String c EmptyString)) <$> list_ascii_of_string s)
  | _ => Raise (TypeError (type_name v))
  end.

(** The bound of the conversion of an integer to text: an integer whose
    absolute value reaches 10^4300 has more than 4300 digits. *)
Definition int_max_str_limit : Z := Eval vm_compute in (10 ^ 4300)%Z.

Definition int_max_str_error : string :=
  "Exceeds the limit (4300 digits) for integer string conversion; use sys.set_int_max_str_digits() to increase the limit".

Section Loader.

(** [repr] of a list or a dict, which [str()] returns for them (quoting,
    escapes and the order of keys are those of the interpreter).  It raises
    what the conversion of an element raises. *)
Variable repr : value → result string.

(** The file system and the YAML parser: [Path(path).exists()],
    [open(path, 'r')] giving the text of the file, and [yaml.safe_load]. *)
Variable path_exists : string → bool.
Variable open_r : string → result string.
Variable safe_load : string → result value.

(** [str(v)].  The interpreter refuses to write an integer of more than
    4300 decimal digits (the default of [sys.get_int_max_str_digits()],
    which the program does not change) and raises [ValueError]. *)
Definition py_str (v : value) : result string :=
  match v with
  | VNone => Ok "None"
  | VBool true => Ok "True"
  | VBool false => Ok "False"
  | VInt n =>
      if (int_max_str_limit <=? Z.abs n)%Z then Raise (ValueError int_max_str_error)
      else Ok (pretty n)
  | VFloat f => Ok (float_text f)
  | VStr s => Ok s
  | VList _ | VDict _ => repr v
  end.

(** ** ETLSyncConfig._db_info *)
Definition _db_info (item : value) : result SyncConfigDB :=
  _host ← py_get item "host" (VStr "127.0.0.1");
  str_host ← py_str _host;
  _port ← py_get item "post" (VInt 5432);
  str_port ← py_str _port;
  _database ← py_getitem item "database";
  str_database ← py_str _database;
  _user ← py_getitem item "user";
  str_user ← py_str _user;
  _password ← py_getitem item "password";
  str_password ← py_str _password;
  Ok {| host := str_host;
        port := str_port;
        database := str_database;
        user := str_user;
        password := str_password |}.

(** ** ETLSyncConfig._table_info *)
Definition _table_info (item : value) : result SyncConfigTable :=
  _columns ← py_get item "columns" (VList []);
  if negb (is_list _columns) then Raise (ETLSyncConfigException "columns") else
  _pk ← py_get item "pk" (VList []);
  if negb (is_list _pk) then Raise (ETLSyncConfigException "pk") else
  _schema ← py_get item "schema" (VStr "public");
  str_schema ← py_str _schema;
  _table ← py_getitem item "table";
  str_table ← py_str _table;
  cs ← py_iter _columns;
  str_columns ← mapM py_str cs;
  ks ← py_iter _pk;
  str_pk ← mapM py_str ks;
  Ok {| schema := str_schema;
        table := str_table;
        columns := str_columns;
        pk := str_pk |}.

(** ** ETLSyncConfig._load_environment_config *)
Definition _load_environment_config (path : string) : result (gmap string value) :=
  if negb (path_exists path) then
    Raise (FileNotFoundError ("Конфиг " ++ path ++ " не найден"))
  else
    f ← open_r path;
    _result ← safe_load f;
    match _result with
    | VDict m => Ok m
    | _ => Raise (ETLSyncConfigException ("Ошибка формата файла: " ++ path))
    end.

(** ** ETLSyncConfig.__init__ *)

Record ETLSyncConfig := {
  _path : string;
  _source : SyncConfigDB;
  _destination : SyncConfigDB;
  _mappings : list SyncConfigMapping;
}.

(** The path read when [path] is [None]. *)
Definition default_path (env : ENV) : string :=
  lower (ENV_name env) ++ ".transform.yml".

(** One element of the list comprehension that builds [_mappings]. *)
Definition mapping_of_item (item : value) : result SyncConfigMapping :=
  s ← py_get item "source" (VDict ∅);
  _src ← _table_info s;
  d ← py_get item "destination" (VDict ∅);
  _dst ← _table_info d;
  Ok {| source := _src; destination := _dst |}.

(** Lines 59-62: the value assigned to [self._path]. *)
Definition resolve_path (path : option string) (env : ENV) : string :=
  match path with
  | None => default_path env
  | Some p => p
  end.

(** Lines 66-82: the sections of the loaded document, in the order the
    constructor reads them. *)
Definition configure (self_path : string) (_config : gmap string value)
    : result ETLSyncConfig :=
  let src := default (VDict ∅) (_config !! "source") in
  if negb (truthy src) then Raise (ETLSyncConfigException "не указан источник") else
  self_source ← _db_info src;
  let dst := default (VDict ∅) (_config !! "destination") in
  if negb (truthy dst) then Raise (ETLSyncConfigException "не указан получатель") else
  self_destination ← _db_info dst;
  items ← py_iter (default (VList []) (_config !! "mappings"));
  self_mappings ← mapM mapping_of_item items;
  Ok {| _path := self_path;
        _source := self_source;
        _destination := self_destination;
        _mappings := self_mappings |}.

Definition __init__ (path : option string) (env : ENV) : result ETLSyncConfig :=
  let self_path := resolve_path path env in
  _config ← _load_environment_config self_path;
  configure self_path _config.

End Loader.

(** ** The read-only properties of ETLSyncConfig (lines 84-104) *)

Module Property.

Definition source (self : ETLSyncConfig) : SyncConfigDB := _source self.

Definition destination (self : ETLSyncConfig) : SyncConfigDB := _destination self.

Definition mappings (self : ETLSyncConfig) : list SyncConfigMapping := _mappings self.

End Property.

(** ** main *)

Section Main.

Variable repr : value → result string.

(** [repr] of a [str]: the quoted text, as the interpreter writes it. *)
Variable repr_str : string → string.

Variable path_exists : string → bool.
Variable open_r : string → result string.
Variable safe_load : string → result value.

(** [str(e)] for the exceptions the loader meets.  The text carried by an
    exception of the file system or of the parser is the one [str()] gives;
    a [KeyError] prints the [repr] of its key; [TypeError] is raised in the
    loader by iteration only. *)
Definition exception_str (e : exception) : string :=
  match e with
  | FileNotFoundError msg => msg
  | OSError msg => msg
  | YAMLError msg => msg
  | ETLSyncConfigException msg => msg
  | KeyError key => repr_str key
  | ValueError msg => msg
  | AttributeError type attr =>
      "'" ++ type ++ "' object has no attribute '" ++ attr ++ "'"
  | TypeError type => "'" ++ type ++ "' object is not iterable"
  end.

(** [repr] of a tuple of strings. *)
Definition repr_tuple (xs : list string) : string :=
  match xs with
  | [] => "()"
  | [x] => "(" ++ repr_str x ++ ",)"
  | _ => "(" ++ String.concat ", " (repr_str <$> xs) ++ ")"
  end.

(** [repr] of the named tuple, which [print] writes for it. *)
Definition repr_SyncConfigDB (db : SyncConfigDB) : string :=
  "SyncConfigDB(host=" ++ repr_str (host db) ++
  ", port=" ++ repr_str (port db) ++
  ", database=" ++ repr_str (database db) ++
  ", user=" ++ repr_str (user db) ++
  ", password=" ++ repr_str (password db) ++ ")".

Definition newline : string := String "010" EmptyString.
Definition tab : string := String "009" EmptyString.

(** Lines 149-150: one line per mapping. *)
Definition print_processing (item : SyncConfigMapping) : string :=
  newline ++ "Обработка: " ++ schema (source item) ++ "." ++ table (source item).

(** Lines 155-160: the four lines of the mapping numbered [idx]. *)
Definition print_mapping (idx : nat) (mapping : SyncConfigMapping) : list string :=
  [ pretty idx ++ ". " ++ schema (source mapping) ++ "." ++ table (source mapping)
      ++ " -> " ++ schema (destination mapping) ++ "." ++ table (destination mapping);
    tab ++ "Колонки: " ++ repr_tuple (columns (source mapping));
    tab ++ "Колонки: " ++ repr_tuple (columns (destination mapping));
    tab ++ "Колонки: " ++ repr_tuple (pk (destination mapping)) ].

(** [enumerate(mappings, start)] followed by the body of the loop. *)
Fixpoint print_mappings (idx : nat) (mappings : list SyncConfigMapping) : list string :=
  match mappings with
  | [] => []
  | mapping :: rest => print_mapping idx mapping ++ print_mappings (S idx) rest
  end.

(** Lines 144-160: what is printed once the configuration is built, one
    string per call of [print]. *)
Definition main_report (etl_config : ETLSyncConfig) : list string :=
  [ newline ++ "Пример доступа к параметрам:";
    "source: " ++ repr_SyncConfigDB (Property.source etl_config);
    "destination: " ++ repr_SyncConfigDB (Property.destination etl_config);
    "DB Host: " ++ host (Property.source etl_config) ] ++
  (print_processing <$> Property.mappings etl_config) ++
  [ "Источник: " ++ database (Property.source etl_config);
    "Назначение: " ++ database (Property.destination etl_config);
    newline ++ "Таблицы для обработки:" ] ++
  print_mappings 1 (Property.mappings etl_config).

(** Lines 139-162: the standard output of [main], one string per call of
    [print]. *)
Definition main : list string :=
  let env := "LocaL" in
  match _env ← get_by_value env;
        __init__ repr path_exists open_r safe_load None _env with
  | Ok etl_config => main_report etl_config
  | Raise e => ["Ошибка загрузки конфигурации: " ++ exception_str e]
  end.

End Main.

(** ** Documents that hold a given configuration *)

(** The section that gives every field of [db] as a string, the port under
    the key the loader reads. *)
Definition db_section (db : SyncConfigDB) : gmap string value :=
  <["host" := VStr (host db)]> (<["post" := VStr (port db)]>
  (<["database" := VStr (database db)]> (<["user" := VStr (user db)]>
  {["password" := VStr (password db)]}))).

Definition table_section (t : SyncConfigTable) : gmap string value :=
  <["schema" := VStr (schema t)]> (<["table" := VStr (table t)]>
  (<["columns" := VList (VStr <$> columns t)]>
  {["pk" := VList (VStr <$> pk t)]})).

Definition mapping_item (mp : SyncConfigMapping) : value :=
  VDict (<["source" := VDict (table_section (source mp))]>
        {["destination" := VDict (table_section (destination mp))]}).

Definition config_document (cfg : ETLSyncConfig) : gmap string value :=
  <["source" := VDict (db_section (_source cfg))]>
  (<["destination" := VDict (db_section (_destination cfg))]>
  {["mappings" := VList (mapping_item <$> _mappings cfg)]}).

(** The keys [_db_info] and [_table_info] read. *)
Definition db_keys : list string := ["host"; "post"; "database"; "user"; "password"].

Definition table_keys : list string := ["columns"; "pk"; "schema"; "table"].

(** The values [iter] refuses: [None], booleans and numbers. *)
Definition not_iterable (v : value) : bool :=
  match v with
  | VNone | VBool _ | VInt _ | VFloat _ => true
  | VStr _ | VList _ | VDict _ => false
  end.


(** ** Notions used to state the properties *)

(** [str(v)] returns: [v] is not an integer of more than 4300 digits, nor
    a list or dict whose [repr] raises. *)
Definition converts (repr : value → result string) (v : value) : Prop :=
  ∃ s, py_str repr v = Ok s.

(** The keys [_db_info] reads by subscript, in the order it reads them. *)
Definition required_keys : list string := ["database"; "user"; "password"].

(** The first required key a section lacks, in that order. *)
Definition first_absent (m : gmap string value) : option string :=
  find (λ k, match m !! k with None => true | Some _ => false end) required_keys.

(** The sub-section a table of an accepted entry was read from: a dict with
    an explicit [table] entry that [_table_info] turns into [t]. *)
Definition read_from (repr : value → result string) (sub : option value)
    (t : SyncConfigTable) : Prop :=
  ∃ s, sub = Some (VDict s) ∧ is_Some (s !! "table") ∧
       _table_info repr (VDict s) = Ok t.

(** A section that is absent from the document, or present and empty. *)
Definition absent_or_empty (config : gmap string value) (key : string) : Prop :=
  config !! key = None ∨ config !! key = Some (VDict ∅).

(** ** Sample documents *)

Definition example_endpoint : value :=
  VDict (<["database" := VStr "etl"]> (<["user" := VStr "u"]>
        {["password" := VStr "p"]})).

(** The endpoint [example_endpoint] describes. *)
Definition example_db : SyncConfigDB :=
  {| host := "127.0.0.1"; port := "5432"; database := "etl"; user := "u";
     password := "p" |}.

(** The constructor run with no path in the local environment, in a
    directory where every file exists and parses to [doc]. *)
Definition example_init (doc : gmap string value) : result ETLSyncConfig :=
  __init__ (λ _, Ok "") (λ _, true) (λ _, Ok "") (λ _, Ok (VDict doc)) None LOCAL.

(** A directory with two files, each standing for its own text: a.yml
    parses to [doc_a] and any other file to [doc_b]. *)
Definition example_two_files (doc_a doc_b : gmap string value)
    (text : string) : result value :=
  if String.eqb text "a.yml" then Ok (VDict doc_a) else Ok (VDict doc_b).

Definition example_init_two (doc_a doc_b : gmap string value) (path : string)
    : result ETLSyncConfig :=
  __init__ (λ _, Ok "") (λ _, true) Ok (example_two_files doc_a doc_b) (Some path) LOCAL.

Definition example_entry : value :=
  VDict (<["source" := VDict {["table" := VStr "a"]}]>
        {["destination" := VDict {["table" := VStr "b"]}]}).

Definition example_entry_no_destination : gmap string value :=
  {["source" := VDict {["table" := VStr "c"]}]}.

Definition example_document (entries : list value) : gmap string value :=
  <["source" := example_endpoint]> (<["destination" := example_endpoint]>
    {["mappings" := VList entries]}).

(** A document with both endpoints and the given value under [mappings]. *)
Definition example_document_with (v : value) : gmap string value :=
  <["source" := example_endpoint]> (<["destination" := example_endpoint]>
    {["mappings" := v]}).

(** The integer written 0x1 followed by 3600 zeros: 4335 decimal digits. *)
Definition example_huge_int : Z := (2 ^ 14400)%Z.


(** * Properties *)

(** ** The result monad *)

Lemma bind_Ok {A B} (a : A) (k : A → result B) : Ok a ≫= k = k a.
Proof. reflexivity. Qed.

Lemma bind_Raise {A B} (e : exception) (k : A → result B) : Raise e ≫= k = Raise e.
Proof. reflexivity. Qed.

Lemma bind_Ok_inv {A B} (r : result A) (k : A → result B) (b : B) :
  r ≫= k = Ok b → ∃ a, r = Ok a ∧ k a = Ok b.
Proof. destruct r as [a|e]; [eauto | discriminate]. Qed.

Lemma mapM_Ok_Forall2 {A B} (f : A → result B) (l : list A) (r : list B) :
  mapM f l = Ok r → Forall2 (λ x y, f x = Ok y) l r.
Proof.
  revert r. induction l as [|x l IH]; intros r H.
  - injection H as <-. constructor.
  - cbn in H. apply bind_Ok_inv in H as (y & Hy & H).
    apply bind_Ok_inv in H as (k & Hk & H).
    injection H as <-. constructor; auto.
Qed.

Lemma mapM_Forall2_Ok {A B} (f : A → result B) (l : list A) (r : list B) :
  Forall2 (λ x y, f x = Ok y) l r → mapM f l = Ok r.
Proof.
  induction 1 as [|x y l r Hxy _ IH]; [reflexivity|].
  cbn. rewrite Hxy. cbn. rewrite IH. reflexivity.
Qed.

Lemma mapM_elem_raise {A B} (f : A → result B) (l : list A) (x : A) :
  x ∈ l → is_raise (f x) → is_raise (mapM f l).
Proof.
  intros Hin Hx. induction Hin as [x l|x y l _ IH]; cbn.
  - destruct (f x); [destruct Hx | exact I].
  - specialize (IH Hx). destruct (f y); [|exact I]. cbn.
    destruct (mapM f l); [destruct IH | exact I].
Qed.

Lemma mapM_first_raise {A B} (f : A → result B) (l1 l2 : list A) (x : A)
    (ys : list B) (e : exception) :
  mapM f l1 = Ok ys → f x = Raise e → mapM f (l1 ++ x :: l2) = Raise e.
Proof.
  revert ys. induction l1 as [|z l1 IH]; intros ys H1 Hx; cbn.
  - rewrite Hx. reflexivity.
  - cbn in H1. apply bind_Ok_inv in H1 as (y & Hy & H1).
    apply bind_Ok_inv in H1 as (k & Hk & _).
    rewrite Hy. cbn. rewrite (IH k Hk Hx). reflexivity.
Qed.

(** ** Truth values *)

Lemma truthy_empty_dict : truthy (VDict ∅) = false.
Proof. reflexivity. Qed.

Lemma truthy_dict_lookup (m : gmap string value) (k : string) (v : value) :
  m !! k = Some v → truthy (VDict m) = true.
Proof.
  intros H. cbn. destruct (map_to_list m) as [|kv l] eqn:E; [|reflexivity].
  apply map_to_list_empty_iff in E. subst m. rewrite lookup_empty in H. discriminate.
Qed.

(** ** [str] *)

Section Str.

Context (repr : value → result string).

Lemma py_str_VStr (s : string) : py_str repr (VStr s) = Ok s.
Proof. reflexivity. Qed.

Lemma py_str_default_port : py_str repr (VInt 5432) = Ok "5432".
Proof. vm_compute. reflexivity. Qed.

(** The conversion of an integer: the decimal text below the bound, the
    [ValueError] from it on. *)
Lemma py_str_VInt (n : Z) :
  py_str repr (VInt n) =
    if (int_max_str_limit <=? Z.abs n)%Z then Raise (ValueError int_max_str_error)
    else Ok (pretty n).
Proof. reflexivity. Qed.

Lemma converts_VStr (s : string) : converts repr (VStr s).
Proof. exists s. reflexivity. Qed.

Lemma converts_default (o : option value) (dflt : value) :
  converts repr dflt → (∀ v, o = Some v → converts repr v) →
  converts repr (default dflt o).
Proof. intros Hd Ho. destruct o as [v|]; cbn; [apply Ho; reflexivity | exact Hd]. Qed.

Lemma mapM_py_str_VStr (l : list string) : mapM (py_str repr) (VStr <$> l) = Ok l.
Proof. induction l as [|x l IH]; [reflexivity|]. cbn. rewrite IH. reflexivity. Qed.

Lemma mapM_py_str_converts (l : list value) :
  (∀ x, x ∈ l → converts repr x) → ∃ ss, mapM (py_str repr) l = Ok ss.
Proof.
  induction l as [|x l IH]; intros H; [exists []; reflexivity|].
  destruct (H x) as [sx Hx]; [left|].
  destruct IH as [ss Hss]; [intros y Hy; apply H; right; exact Hy|].
  exists (sx :: ss). cbn. rewrite Hx. cbn. rewrite Hss. reflexivity.
Qed.

End Str.

(** ** [_db_info] *)

Section DbInfo.

Context (repr : value → result string).

(** What [_db_info] does on a dict, step by step: each value is turned
    into text before the next key is read. *)
Lemma db_info_dict (m : gmap string value) :
  _db_info repr (VDict m) =
    py_str repr (default (VStr "127.0.0.1") (m !! "host")) ≫= λ str_host,
    py_str repr (default (VInt 5432) (m !! "post")) ≫= λ str_port,
    match m !! "database" with
    | None => Raise (KeyError "database")
    | Some d =>
        py_str repr d ≫= λ str_database,
        match m !! "user" with
        | None => Raise (KeyError "user")
        | Some u =>
            py_str repr u ≫= λ str_user,
            match m !! "password" with
            | None => Raise (KeyError "password")
            | Some p =>
                py_str repr p ≫= λ str_password,
                Ok {| host := str_host; port := str_port;
                      database := str_database; user := str_user;
                      password := str_password |}
            end
        end
    end.
Proof.
  unfold _db_info. cbn.
  destruct (py_str repr (default (VStr "127.0.0.1") (m !! "host"))); [|reflexivity].
  cbn. destruct (py_str repr (default (VInt 5432) (m !! "post"))); [|reflexivity].
  cbn. destruct (m !! "database") as [d|]; [|reflexivity].
  cbn. destruct (py_str repr d); [|reflexivity].
  cbn. destruct (m !! "user") as [u|]; [|reflexivity].
  cbn. destruct (py_str repr u); [|reflexivity].
  cbn. destruct (m !! "password") as [p|]; reflexivity.
Qed.

(** When [_db_info] accepts a dict. *)
Lemma db_info_Ok_iff (m : gmap string value) (db : SyncConfigDB) :
  _db_info repr (VDict m) = Ok db ↔
  ∃ d u p,
    m !! "database" = Some d ∧ m !! "user" = Some u ∧ m !! "password" = Some p ∧
    py_str repr (default (VStr "127.0.0.1") (m !! "host")) = Ok (host db) ∧
    py_str repr (default (VInt 5432) (m !! "post")) = Ok (port db) ∧
    py_str repr d = Ok (database db) ∧
    py_str repr u = Ok (user db) ∧
    py_str repr p = Ok (password db).
Proof.
  rewrite db_info_dict. split.
  - intros H.
    apply bind_Ok_inv in H as (sh & Hh & H).
    apply bind_Ok_inv in H as (sp & Hp & H).
    destruct (m !! "database") as [d|]; [|discriminate H].
    apply bind_Ok_inv in H as (sd & Hd & H).
    destruct (m !! "user") as [u|]; [|discriminate H].
    apply bind_Ok_inv in H as (su & Hu & H).
    destruct (m !! "password") as [p|]; [|discriminate H].
    apply bind_Ok_inv in H as (sw & Hw & H).
    injection H as <-. exists d, u, p. repeat split; assumption.
  - intros (d & u & p & -> & -> & -> & -> & -> & Hd & Hu & Hp).
    cbn. rewrite Hd. cbn. rewrite Hu. cbn. rewrite Hp. cbn.
    destruct db; reflexivity.
Qed.

(** A value that is not a dict has no [get]. *)
Lemma db_info_not_dict (v : value) :
  is_dict v = false → _db_info repr v = Raise (AttributeError (type_name v) "get").
Proof. destruct v; (discriminate || reflexivity). Qed.

Lemma db_info_Ok_truthy (v : value) (db : SyncConfigDB) :
  _db_info repr v = Ok db → truthy v = true.
Proof.
  destruct v as [| | | | | |m]; try discriminate.
  intros H. apply db_info_Ok_iff in H as (d & _ & _ & Hd & _).
  eapply truthy_dict_lookup, Hd.
Qed.

(** The key [port] is never read: its value does not reach the result. *)
Lemma db_info_port_key_unread (m : gmap string value) (v : value) :
  _db_info repr (VDict (<["port" := v]> m)) = _db_info repr (VDict m).
Proof.
  rewrite !db_info_dict.
  rewrite !lookup_insert_ne by discriminate. reflexivity.
Qed.

(** The number is read under the key [post]. *)
Lemma db_info_post_key (m : gmap string value) (n : Z) (db : SyncConfigDB) :
  _db_info repr (VDict (<["post" := VInt n]> m)) = Ok db → port db = pretty n.
Proof.
  intros H. apply db_info_Ok_iff in H as (d & u & p & _ & _ & _ & _ & H & _).
  rewrite lookup_insert_eq in H. cbn [from_option id] in H.
  rewrite py_str_VInt in H.
  destruct (int_max_str_limit <=? Z.abs n)%Z; [discriminate H|].
  injection H as <-. reflexivity.
Qed.

(** With every value it reads turned into text, [_db_info] raises for the
    first required key the dict lacks. *)
Lemma db_info_first_absent_converts (m : gmap string value) (k : string) :
  first_absent m = Some k →
  (∀ key v, key ∈ db_keys → m !! key = Some v → converts repr v) →
  _db_info repr (VDict m) = Raise (KeyError k).
Proof.
  unfold first_absent, required_keys. rewrite db_info_dict. cbn [find].
  intros Hk Hc.
  assert (Hkey : ∀ key v, m !! key = Some v → key ∈ db_keys → converts repr v)
    by (intros key v H1 H2; eapply Hc; eassumption).
  destruct (converts_default repr (m !! "host") (VStr "127.0.0.1")) as [sh ->];
    [apply converts_VStr
    |intros v Hv; apply (Hkey "host" v Hv); unfold db_keys; set_unfold; tauto|].
  destruct (converts_default repr (m !! "post") (VInt 5432)) as [sp ->];
    [eexists; apply py_str_default_port
    |intros v Hv; apply (Hkey "post" v Hv); unfold db_keys; set_unfold; tauto|].
  cbn.
  destruct (m !! "database") as [d|] eqn:Ed; [|injection Hk as <-; reflexivity].
  destruct (Hkey "database" d Ed) as [sd ->]; [unfold db_keys; set_unfold; tauto|].
  cbn.
  destruct (m !! "user") as [u|] eqn:Eu; [|injection Hk as <-; reflexivity].
  destruct (Hkey "user" u Eu) as [su ->]; [unfold db_keys; set_unfold; tauto|].
  cbn.
  destruct (m !! "password") as [p|] eqn:Ep; [discriminate Hk|].
  injection Hk as <-. reflexivity.
Qed.

End DbInfo.

(** C1. An endpoint section that maps [port] to the number 5433 (and gives
    the three required keys) yields an endpoint whose port is the default
    "5432": [_db_info] reads the key [post], so the number under [port] is
    not read back as "5433". *)
Theorem db_info_port_5433_yields_default (repr : value → result string) :
  _db_info repr
    (VDict (<["port" := VInt 5433]> (<["database" := VStr "etl"]>
           (<["user" := VStr "u"]> {["password" := VStr "p"]})))) =
  Ok {| host := "127.0.0.1"; port := "5432"; database := "etl";
        user := "u"; password := "p" |}.
Proof. vm_compute. reflexivity. Qed.

(** C3. When a section lacks some of [database], [user], [password] and
    the values it gives are valid, that is [str] turns each value that
    [_db_info] reads into text, [_db_info] raises one [KeyError], for the
    first absent key in the order database, user, password. *)
Theorem db_info_first_absent (repr : value → result string) (m : gmap string value)
    (k : string) :
  first_absent m = Some k →
  (∀ key v, key ∈ db_keys → m !! key = Some v → converts repr v) →
  _db_info repr (VDict m) = Raise (KeyError k).
Proof.
  intros Hk Hc. apply db_info_first_absent_converts; assumption.
Qed.

Lemma db_info_first_absent_witness :
  first_absent (<["host" := VStr "h"]> {["database" := VInt 7]}) = Some "user" ∧
  _db_info (λ _, Ok "") (VDict (<["host" := VStr "h"]> {["database" := VInt 7]})) =
    Raise (KeyError "user").
Proof.
  split; [vm_compute; reflexivity|].
  apply (db_info_first_absent (λ _, Ok "") _ "user"); [vm_compute; reflexivity|].
  intros key v _ Hv.
  destruct (decide (key = "host")) as [->|Hh];
    [vm_compute in Hv; injection Hv as <-; eexists; reflexivity|].
  destruct (decide (key = "database")) as [->|Hd];
    [vm_compute in Hv; injection Hv as <-; eexists; vm_compute; reflexivity|].
  rewrite lookup_insert_ne, lookup_singleton_ne in Hv by congruence.
  discriminate Hv.
Defined.

(** C5, as the code has it.  A section with exactly the keys [database],
    [user] and [password], each with a value that [str] turns into text,
    is accepted, with host "127.0.0.1", port "5432" and these texts. *)
Theorem db_info_defaults (repr : value → result string) (m : gmap string value) :
  dom m = {["database"; "user"; "password"]} →
  (∀ k v, m !! k = Some v → converts repr v) →
  ∃ d u p sd su sp,
    m !! "database" = Some d ∧ m !! "user" = Some u ∧ m !! "password" = Some p ∧
    py_str repr d = Ok sd ∧ py_str repr u = Ok su ∧ py_str repr p = Ok sp ∧
    _db_info repr (VDict m) =
      Ok {| host := "127.0.0.1"; port := "5432"; database := sd;
            user := su; password := sp |}.
Proof.
  intros Hdom Hc.
  assert (Hin : ∀ k, k ∈ dom m ↔ k = "database" ∨ k = "user" ∨ k = "password").
  { intros k. rewrite Hdom, !elem_of_union, !elem_of_singleton. tauto. }
  assert (Hd : is_Some (m !! "database")) by (apply elem_of_dom, Hin; auto).
  assert (Hu : is_Some (m !! "user")) by (apply elem_of_dom, Hin; auto).
  assert (Hp : is_Some (m !! "password")) by (apply elem_of_dom, Hin; auto).
  assert (Hh : m !! "host" = None).
  { apply not_elem_of_dom. rewrite Hin. intros [?|[?|?]]; discriminate. }
  assert (Ho : m !! "post" = None).
  { apply not_elem_of_dom. rewrite Hin. intros [?|[?|?]]; discriminate. }
  destruct Hd as [d Hd], Hu as [u Hu], Hp as [p Hp].
  destruct (Hc _ _ Hd) as [sd Hsd], (Hc _ _ Hu) as [su Hsu], (Hc _ _ Hp) as [sp Hsp].
  exists d, u, p, sd, su, sp. repeat split; try assumption.
  apply db_info_Ok_iff. exists d, u, p.
  rewrite Hh, Ho. cbn [from_option id host port database user password].
  split; [exact Hd|]. split; [exact Hu|]. split; [exact Hp|].
  split; [reflexivity|]. split; [apply py_str_default_port|].
  split; [exact Hsd|]. split; [exact Hsu | exact Hsp].
Qed.

Lemma db_info_defaults_witness :
  _db_info (λ _, Ok "")
    (VDict (<["database" := VStr "etl"]> (<["user" := VStr "u"]>
           {["password" := VInt 7]}))) =
  Ok {| host := "127.0.0.1"; port := "5432"; database := "etl";
        user := "u"; password := "7" |}.
Proof.
  destruct (db_info_defaults (λ _, Ok "")
              (<["database" := VStr "etl"]> (<["user" := VStr "u"]>
                 {["password" := VInt 7]})))
    as (d & u & p & sd & su & sp & Hd & Hu & Hp & Hsd & Hsu & Hsp & H).
  - rewrite !dom_insert_L, dom_singleton_L. apply (assoc_L (∪)).
  - intros k v Hv.
    destruct (decide (k = "database")) as [->|H1];
      [vm_compute in Hv; injection Hv as <-; eexists; reflexivity|].
    destruct (decide (k = "user")) as [->|H2];
      [vm_compute in Hv; injection Hv as <-; eexists; reflexivity|].
    destruct (decide (k = "password")) as [->|H3];
      [vm_compute in Hv; injection Hv as <-; eexists; vm_compute; reflexivity|].
    rewrite !lookup_insert_ne, lookup_singleton_ne in Hv by congruence.
    discriminate Hv.
  - rewrite H. vm_compute in Hd, Hu, Hp.
    injection Hd as <-. injection Hu as <-. injection Hp as <-.
    vm_compute in Hsd, Hsu, Hsp.
    injection Hsd as <-. injection Hsu as <-. injection Hsp as <-.
    reflexivity.
Defined.

(** C5, as stated, fails on a section whose three keys are present but
    whose database is an integer of more than 4300 digits: [str] raises
    [ValueError] and no endpoint is returned. *)
Lemma db_info_defaults_huge_int :
  dom (<["database" := VInt example_huge_int]> (<["user" := VStr "u"]>
         ({["password" := VStr "p"]} : gmap string value))) =
    {["database"; "user"; "password"]} ∧
  _db_info (λ _, Ok "")
    (VDict (<["database" := VInt example_huge_int]> (<["user" := VStr "u"]>
           {["password" := VStr "p"]}))) =
    Raise (ValueError int_max_str_error).
Proof.
  split.
  - rewrite !dom_insert_L, dom_singleton_L. apply (assoc_L (∪)).
  - vm_compute. reflexivity.
Qed.

(** ** The default path *)

(** C2, as the code has it.  With no explicit path the constructor reads
    the file named after the lower-cased symbolic name of the member:
    test, dev, prod, local. *)
Theorem resolve_path_default_uses_name (env : ENV) :
  resolve_path None env =
    match env with
    | TEST => "test.transform.yml"
    | DEV => "dev.transform.yml"
    | PROD => "prod.transform.yml"
    | LOCAL => "local.transform.yml"
    end ∧
  ∀ repr path_exists open_r safe_load,
    __init__ repr path_exists open_r safe_load None env =
    __init__ repr path_exists open_r safe_load (Some (resolve_path None env)) env.
Proof. split; [destruct env; reflexivity | reflexivity]. Qed.

(** C2, as stated, fails for the development environment: the path is not
    "development.transform.yml". *)
Lemma resolve_path_DEV_not_development :
  resolve_path None DEV ≠ ENV_value DEV ++ ".transform.yml" ∧
  resolve_path None DEV ≠ "development.transform.yml".
Proof. split; vm_compute; discriminate. Qed.

(** ** [ENV.get_by_value] *)

Lemma get_by_value_match (s : string) (e : ENV) :
  lower s = lower (ENV_value e) → get_by_value s = Ok e.
Proof.
  intros H. unfold get_by_value. cbv zeta. rewrite H.
  destruct e; reflexivity.
Qed.

Lemma get_by_value_no_match (s : string) :
  (∀ e, lower s ≠ lower (ENV_value e)) →
  get_by_value s = Raise (ValueError "нет такого значения").
Proof.
  intros H. unfold get_by_value, ENV_members. cbv zeta.
  cbn [get_by_value_loop].
  rewrite !(proj2 (String.eqb_neq _ _)); [reflexivity|..];
    intros E; eapply H; symmetry; exact E.
Qed.

(** C7. The lookup compares lower-cased texts: a string that matches the
    value of a member in lower case yields that member, and a string that
    matches none raises [ValueError]. *)
Theorem get_by_value_case_insensitive (s : string) :
  (∀ e, lower s = lower (ENV_value e) → get_by_value s = Ok e) ∧
  ((∀ e, lower s ≠ lower (ENV_value e)) →
   get_by_value s = Raise (ValueError "нет такого значения")).
Proof.
  split; [intros e; apply get_by_value_match | apply get_by_value_no_match].
Qed.

Lemma get_by_value_case_insensitive_witness :
  get_by_value "LocaL" = Ok LOCAL ∧
  get_by_value "staging" = Raise (ValueError "нет такого значения").
Proof.
  split.
  - apply (proj1 (get_by_value_case_insensitive "LocaL") LOCAL). reflexivity.
  - apply (proj2 (get_by_value_case_insensitive "staging")).
    intros e; destruct e; vm_compute; discriminate.
Defined.

Example get_by_value_LOCAL_spellings :
  get_by_value "LOCAL" = Ok LOCAL ∧ get_by_value "local" = Ok LOCAL ∧
  get_by_value "LocaL" = Ok LOCAL.
Proof. repeat split. Qed.

Lemma get_by_value_Ok_iff (s : string) (e : ENV) :
  get_by_value s = Ok e ↔ lower s = lower (ENV_value e).
Proof.
  split; [|apply get_by_value_match].
  unfold get_by_value, ENV_members. cbv zeta. cbn [get_by_value_loop].
  repeat match goal with
         | |- context [String.eqb ?a ?b] =>
             destruct (String.eqb_spec a b) as [E|_];
             [intros [= <-]; symmetry; exact E|]
         end.
  discriminate.
Qed.

(** ** [_load_environment_config] *)

(** C8. When the file exists and its parsed content is not a dict (a
    scalar, a list, or [None] for an empty document), the load raises
    [ETLSyncConfigException] with the format message. *)
Theorem load_not_dict_format_error (path_exists : string → bool)
    (open_r : string → result string) (safe_load : string → result value)
    (path text : string) (v : value) :
  path_exists path = true →
  open_r path = Ok text →
  safe_load text = Ok v →
  is_dict v = false →
  _load_environment_config path_exists open_r safe_load path =
    Raise (ETLSyncConfigException ("Ошибка формата файла: " ++ path)).
Proof.
  intros He Ho Hl Hv. unfold _load_environment_config.
  rewrite He, Ho. cbn. rewrite Hl. cbn.
  destruct v; (discriminate || reflexivity).
Qed.

Lemma load_not_dict_format_error_witness :
  _load_environment_config (λ _, true) (λ _, Ok "- a") (λ _, Ok (VList [VStr "a"]))
    "local.transform.yml" =
  Raise (ETLSyncConfigException "Ошибка формата файла: local.transform.yml") ∧
  _load_environment_config (λ _, true) (λ _, Ok "") (λ _, Ok VNone)
    "local.transform.yml" =
  Raise (ETLSyncConfigException "Ошибка формата файла: local.transform.yml").
Proof.
  split.
  - apply (load_not_dict_format_error _ _ _ _ "- a" (VList [VStr "a"])); reflexivity.
  - apply (load_not_dict_format_error _ _ _ _ "" VNone); reflexivity.
Defined.

Lemma load_dict (path_exists : string → bool) (open_r : string → result string)
    (safe_load : string → result value) (path text : string)
    (m : gmap string value) :
  path_exists path = true → open_r path = Ok text → safe_load text = Ok (VDict m) →
  _load_environment_config path_exists open_r safe_load path = Ok m.
Proof.
  intros He Ho Hl. unfold _load_environment_config.
  rewrite He, Ho. cbn. rewrite Hl. reflexivity.
Qed.

Lemma load_missing_file (path_exists : string → bool) (open_r : string → result string)
    (safe_load : string → result value) (path : string) :
  path_exists path = false →
  _load_environment_config path_exists open_r safe_load path =
    Raise (FileNotFoundError ("Конфиг " ++ path ++ " не найден")).
Proof. intros He. unfold _load_environment_config. rewrite He. reflexivity. Qed.

(** ** [_table_info] *)

Section TableInfo.

Context (repr : value → result string).

(** What [_table_info] does on a dict, step by step: the two shape checks,
    then the schema, the table, the columns and the keys, each turned into
    text as it is read. *)
Lemma table_info_dict (m : gmap string value) :
  _table_info repr (VDict m) =
    match default (VList []) (m !! "columns") with
    | VList cs =>
        match default (VList []) (m !! "pk") with
        | VList ks =>
            py_str repr (default (VStr "public") (m !! "schema")) ≫= λ str_schema,
            match m !! "table" with
            | Some t =>
                py_str repr t ≫= λ str_table,
                mapM (py_str repr) cs ≫= λ str_columns,
                mapM (py_str repr) ks ≫= λ str_pk,
                Ok {| schema := str_schema; table := str_table;
                      columns := str_columns; pk := str_pk |}
            | None => Raise (KeyError "table")
            end
        | _ => Raise (ETLSyncConfigException "pk")
        end
    | _ => Raise (ETLSyncConfigException "columns")
    end.
Proof.
  unfold _table_info. cbn.
  destruct (default (VList []) (m !! "columns")); try reflexivity. cbn.
  destruct (default (VList []) (m !! "pk")); try reflexivity. cbn.
  destruct (py_str repr (default (VStr "public") (m !! "schema"))); [|reflexivity].
  cbn. destruct (m !! "table") as [t|]; [|reflexivity].
  cbn. destruct (py_str repr t); reflexivity.
Qed.

(** When [_table_info] accepts a dict. *)
Lemma table_info_Ok_iff (m : gmap string value) (t : SyncConfigTable) :
  _table_info repr (VDict m) = Ok t ↔
  ∃ cs ks tv,
    default (VList []) (m !! "columns") = VList cs ∧
    default (VList []) (m !! "pk") = VList ks ∧
    m !! "table" = Some tv ∧
    py_str repr (default (VStr "public") (m !! "schema")) = Ok (schema t) ∧
    py_str repr tv = Ok (table t) ∧
    mapM (py_str repr) cs = Ok (columns t) ∧
    mapM (py_str repr) ks = Ok (pk t).
Proof.
  rewrite table_info_dict. split.
  - intros H.
    destruct (default (VList []) (m !! "columns")) as [| | | | |cs|];
      try discriminate H.
    destruct (default (VList []) (m !! "pk")) as [| | | | |ks|];
      try discriminate H.
    apply bind_Ok_inv in H as (ss & Hs & H).
    destruct (m !! "table") as [tv|]; [|discriminate H].
    apply bind_Ok_inv in H as (st & Ht & H).
    apply bind_Ok_inv in H as (sc & Hc & H).
    apply bind_Ok_inv in H as (sk & Hk & H).
    injection H as <-. exists cs, ks, tv. repeat split; assumption.
  - intros (cs & ks & tv & -> & -> & -> & -> & Ht & Hc & Hk).
    cbn. rewrite Ht. cbn. rewrite Hc. cbn. rewrite Hk. cbn.
    destruct t; reflexivity.
Qed.

Lemma table_info_not_dict (v : value) :
  is_dict v = false → _table_info repr v = Raise (AttributeError (type_name v) "get").
Proof. destruct v; (discriminate || reflexivity). Qed.

Lemma table_info_empty : _table_info repr (VDict ∅) = Raise (KeyError "table").
Proof. reflexivity. Qed.

(** An accepted section is a dict with an explicit [table] entry. *)
Lemma table_info_Ok_inv (v : value) (t : SyncConfigTable) :
  _table_info repr v = Ok t →
  ∃ m tv, v = VDict m ∧ m !! "table" = Some tv ∧ py_str repr tv = Ok (table t).
Proof.
  destruct v as [| | | | | |m]; try discriminate.
  intros H. apply table_info_Ok_iff in H as (cs & ks & tv & _ & _ & Ht & _ & Hs & _).
  exists m, tv. repeat split; assumption.
Qed.

(** The shape checks come first. *)
Lemma table_info_columns_not_list (m : gmap string value) :
  is_list (default (VList []) (m !! "columns")) = false →
  _table_info repr (VDict m) = Raise (ETLSyncConfigException "columns").
Proof.
  rewrite table_info_dict.
  destruct (default (VList []) (m !! "columns")); (discriminate || reflexivity).
Qed.

Lemma table_info_pk_not_list (m : gmap string value) :
  is_list (default (VList []) (m !! "columns")) = true →
  is_list (default (VList []) (m !! "pk")) = false →
  _table_info repr (VDict m) = Raise (ETLSyncConfigException "pk").
Proof.
  rewrite table_info_dict.
  destruct (default (VList []) (m !! "columns")); try discriminate.
  destruct (default (VList []) (m !! "pk")); (discriminate || reflexivity).
Qed.

End TableInfo.

(** C6, as the code has it.  A [columns] entry that is not a list raises
    [ETLSyncConfigException]("columns"); a [pk] entry that is not a list
    raises the same exception, named "pk" unless [columns] is rejected
    first; both happen whatever else the section holds.  With
    [columns: []] an accepted section has no columns, and the section is
    accepted when it has a [table] entry, [pk] is absent or a list, and
    [str] turns the schema, the table and the elements of [pk] into
    text. *)
Theorem table_info_shape (repr : value → result string) (m : gmap string value) :
  (∀ v, m !! "columns" = Some v → is_list v = false →
     _table_info repr (VDict m) = Raise (ETLSyncConfigException "columns")) ∧
  (∀ v, m !! "pk" = Some v → is_list v = false →
     _table_info repr (VDict m) =
       Raise (ETLSyncConfigException
                (if is_list (default (VList []) (m !! "columns")) then "pk"
                 else "columns"))) ∧
  (m !! "columns" = Some (VList []) →
     (∀ t, _table_info repr (VDict m) = Ok t → columns t = []) ∧
     (∀ tv ks, m !! "table" = Some tv →
        default (VList []) (m !! "pk") = VList ks →
        converts repr (default (VStr "public") (m !! "schema")) →
        converts repr tv →
        (∀ x, x ∈ ks → converts repr x) →
        ∃ t, _table_info repr (VDict m) = Ok t ∧ columns t = [])).
Proof.
  split; [|split].
  - intros v Hv Hl. apply table_info_columns_not_list. rewrite Hv. exact Hl.
  - intros v Hv Hl.
    destruct (is_list (default (VList []) (m !! "columns"))) eqn:Ec.
    + apply table_info_pk_not_list; [exact Ec|]. rewrite Hv. exact Hl.
    + apply table_info_columns_not_list, Ec.
  - intros Hc. split.
    + intros t H.
      apply table_info_Ok_iff in H as (cs & ks & tv & Hcs & _ & _ & _ & _ & H & _).
      rewrite Hc in Hcs. cbn in Hcs. injection Hcs as <-.
      cbn in H. injection H as <-. reflexivity.
    + intros tv ks Ht Hks [ss Hs] [st Hst] Hall.
      destruct (mapM_py_str_converts repr ks Hall) as [sk Hsk].
      exists {| schema := ss; table := st; columns := []; pk := sk |}.
      split; [|reflexivity].
      apply table_info_Ok_iff. exists [], ks, tv.
      rewrite Hc. cbn [schema table columns pk].
      repeat split; assumption.
Qed.

Lemma table_info_shape_witness :
  _table_info (λ _, Ok "") (VDict {["columns" := VStr "not_a_list"]}) =
    Raise (ETLSyncConfigException "columns") ∧
  _table_info (λ _, Ok "") (VDict (<["table" := VStr "t"]> {["pk" := VInt 1]})) =
    Raise (ETLSyncConfigException "pk") ∧
  ∃ t, _table_info (λ _, Ok "")
         (VDict (<["table" := VStr "t"]> {["columns" := VList []]})) = Ok t ∧
       columns t = [].
Proof.
  split; [|split].
  - apply (proj1 (table_info_shape (λ _, Ok "") {["columns" := VStr "not_a_list"]})
             (VStr "not_a_list")); reflexivity.
  - exact (proj1 (proj2 (table_info_shape (λ _, Ok "")
             (<["table" := VStr "t"]> {["pk" := VInt 1]}))) (VInt 1) eq_refl eq_refl).
  - destruct (proj2 (proj2 (table_info_shape (λ _, Ok "")
             (<["table" := VStr "t"]> {["columns" := VList []]})))) as [_ H];
      [reflexivity|].
    apply (H (VStr "t") []); try reflexivity.
    + apply converts_VStr.
    + apply converts_VStr.
    + intros x Hx. inversion Hx.
Defined.

(** C6, as stated, fails on sections with [columns: []] that are not
    accepted: one whose table is an integer of more than 4300 digits
    ([str] raises [ValueError]), one without [table] and one whose [pk] is
    not a list. *)
Lemma table_info_columns_empty_rejected :
  _table_info (λ _, Ok "")
    (VDict (<["table" := VInt example_huge_int]> {["columns" := VList []]})) =
    Raise (ValueError int_max_str_error) ∧
  _table_info (λ _, Ok "") (VDict {["columns" := VList []]}) =
    Raise (KeyError "table") ∧
  _table_info (λ _, Ok "")
    (VDict (<["table" := VStr "t"]> (<["pk" := VStr "id"]> {["columns" := VList []]}))) =
    Raise (ETLSyncConfigException "pk").
Proof. repeat split; vm_compute; reflexivity. Qed.


(** ** One entry of [mappings] *)

Section Mapping.

Context (repr : value → result string).

Lemma mapping_of_item_dict (m : gmap string value) :
  mapping_of_item repr (VDict m) =
    _table_info repr (default (VDict ∅) (m !! "source")) ≫= λ _src,
    _table_info repr (default (VDict ∅) (m !! "destination")) ≫= λ _dst,
    Ok {| source := _src; destination := _dst |}.
Proof. reflexivity. Qed.

Lemma mapping_of_item_no_source (m : gmap string value) :
  m !! "source" = None → mapping_of_item repr (VDict m) = Raise (KeyError "table").
Proof. intros H. rewrite mapping_of_item_dict, H. reflexivity. Qed.

Lemma mapping_of_item_no_destination (m : gmap string value) :
  m !! "destination" = None →
  mapping_of_item repr (VDict m) =
    _table_info repr (default (VDict ∅) (m !! "source")) ≫= λ _,
    Raise (KeyError "table").
Proof.
  intros H. rewrite mapping_of_item_dict, H. cbn [default].
  rewrite table_info_empty.
  destruct (_table_info repr (default (VDict ∅) (m !! "source"))); reflexivity.
Qed.

Lemma table_info_default_Ok (sub : option value) (t : SyncConfigTable) :
  _table_info repr (default (VDict ∅) sub) = Ok t → read_from repr sub t.
Proof.
  destruct sub as [v|]; cbn [default]; [|rewrite table_info_empty; discriminate].
  intros H. destruct (table_info_Ok_inv repr v t H) as (s & tv & -> & Ht & _).
  exists s. rewrite Ht. eauto.
Qed.

Lemma mapping_of_item_Ok_inv (item : value) (mp : SyncConfigMapping) :
  mapping_of_item repr item = Ok mp →
  ∃ m, item = VDict m ∧
       read_from repr (m !! "source") (source mp) ∧
       read_from repr (m !! "destination") (destination mp).
Proof.
  destruct item as [| | | | | |m]; try discriminate.
  rewrite mapping_of_item_dict. intros H.
  apply bind_Ok_inv in H as (ts & Hs & H).
  apply bind_Ok_inv in H as (td & Hd & H).
  injection H as <-. exists m. cbn [source destination].
  split; [reflexivity|]. split; apply table_info_default_Ok; assumption.
Qed.

End Mapping.

(** ** The constructor *)

Section Init.

Context (repr : value → result string).
Context (path_exists : string → bool).
Context (open_r : string → result string) (safe_load : string → result value).

Let load := _load_environment_config path_exists open_r safe_load.
Let init := __init__ repr path_exists open_r safe_load.

Lemma init_loaded (path : option string) (env : ENV) (config : gmap string value) :
  load (resolve_path path env) = Ok config →
  init path env = configure repr (resolve_path path env) config.
Proof. intros H. unfold init, __init__. cbv zeta. fold load. rewrite H. reflexivity. Qed.

Lemma init_not_loaded (path : option string) (env : ENV) (e : exception) :
  load (resolve_path path env) = Raise e → init path env = Raise e.
Proof. intros H. unfold init, __init__. cbv zeta. fold load. rewrite H. reflexivity. Qed.

Lemma absent_or_empty_falsy (config : gmap string value) (key : string) :
  absent_or_empty config key → truthy (default (VDict ∅) (config !! key)) = false.
Proof. intros [-> | ->]; reflexivity. Qed.

Lemma configure_source_falsy (p : string) (config : gmap string value) :
  truthy (default (VDict ∅) (config !! "source")) = false →
  configure repr p config = Raise (ETLSyncConfigException "не указан источник").
Proof. intros H. unfold configure. cbv zeta. rewrite H. reflexivity. Qed.

(** With a falsy destination the outcome is decided by the source step. *)
Lemma configure_destination_falsy (p : string) (config : gmap string value) :
  truthy (default (VDict ∅) (config !! "destination")) = false →
  configure repr p config =
    if negb (truthy (default (VDict ∅) (config !! "source"))) then
      Raise (ETLSyncConfigException "не указан источник")
    else
      _db_info repr (default (VDict ∅) (config !! "source")) ≫= λ _,
      Raise (ETLSyncConfigException "не указан получатель").
Proof.
  intros H. unfold configure. cbv zeta. rewrite H.
  destruct (negb (truthy (default (VDict ∅) (config !! "source")))); reflexivity.
Qed.

Lemma configure_destination_falsy_raise (p : string) (config : gmap string value) :
  truthy (default (VDict ∅) (config !! "destination")) = false →
  is_raise (configure repr p config).
Proof.
  intros H. rewrite (configure_destination_falsy p config H).
  destruct (negb _); [exact I|].
  destruct (_db_info repr _); exact I.
Qed.

Lemma configure_destination_falsy_source_Ok (p : string) (config : gmap string value)
    (s : value) (db : SyncConfigDB) :
  truthy (default (VDict ∅) (config !! "destination")) = false →
  config !! "source" = Some s → _db_info repr s = Ok db →
  configure repr p config = Raise (ETLSyncConfigException "не указан получатель").
Proof.
  intros H Hs Hdb. rewrite (configure_destination_falsy p config H), Hs.
  cbn [from_option id]. rewrite (db_info_Ok_truthy repr s db Hdb), Hdb. reflexivity.
Qed.

(** Once both endpoints are accepted, the outcome is that of the mappings. *)
Lemma configure_endpoints_Ok (p : string) (config : gmap string value)
    (s d : value) (sdb ddb : SyncConfigDB) :
  config !! "source" = Some s → _db_info repr s = Ok sdb →
  config !! "destination" = Some d → _db_info repr d = Ok ddb →
  configure repr p config =
    py_iter (default (VList []) (config !! "mappings")) ≫= λ items,
    mapM (mapping_of_item repr) items ≫= λ ms,
    Ok {| _path := p; _source := sdb; _destination := ddb; _mappings := ms |}.
Proof.
  intros Hs Hsdb Hd Hddb. unfold configure. cbv zeta.
  rewrite Hs, Hd. cbn [from_option id].
  rewrite (db_info_Ok_truthy repr s sdb Hsdb), (db_info_Ok_truthy repr d ddb Hddb).
  cbn [negb]. rewrite Hsdb, Hddb. reflexivity.
Qed.

Lemma configure_Ok_inv (p : string) (config : gmap string value) (cfg : ETLSyncConfig) :
  configure repr p config = Ok cfg →
  ∃ items,
    py_iter (default (VList []) (config !! "mappings")) = Ok items ∧
    mapM (mapping_of_item repr) items = Ok (_mappings cfg).
Proof.
  unfold configure. cbv zeta.
  destruct (negb (truthy (default (VDict ∅) (config !! "source")))); [discriminate|].
  intros H. apply bind_Ok_inv in H as (sdb & _ & H).
  destruct (negb (truthy (default (VDict ∅) (config !! "destination")))); [discriminate|].
  apply bind_Ok_inv in H as (ddb & _ & H).
  apply bind_Ok_inv in H as (items & Hit & H).
  apply bind_Ok_inv in H as (ms & Hms & H).
  injection H as <-. exists items. split; assumption.
Qed.

Lemma configure_item_raise (p : string) (config : gmap string value)
    (items : list value) (item : value) :
  py_iter (default (VList []) (config !! "mappings")) = Ok items →
  item ∈ items → is_raise (mapping_of_item repr item) →
  is_raise (configure repr p config).
Proof.
  intros Hit Hin Hr.
  destruct (configure repr p config) as [cfg|] eqn:E; [|exact I].
  destruct (configure_Ok_inv p config cfg E) as (items' & Hit' & Hms).
  rewrite Hit in Hit'. injection Hit' as <-.
  pose proof (mapM_elem_raise _ _ _ Hin Hr) as Hm. rewrite Hms in Hm. exact Hm.
Qed.

End Init.

(** C4. For a loaded document: when [source] is absent or an empty
    mapping the constructor raises [ETLSyncConfigException] with the
    source message; when [destination] is absent or an empty mapping the
    constructor raises, with the destination message once the source
    section has been accepted; the source is tested first, so a document
    missing both raises with the source message. *)
Theorem init_missing_section (repr : value → result string) (path_exists : string → bool)
    (open_r : string → result string) (safe_load : string → result value)
    (path : option string) (env : ENV) (config : gmap string value) :
  _load_environment_config path_exists open_r safe_load (resolve_path path env) =
    Ok config →
  (absent_or_empty config "source" →
     __init__ repr path_exists open_r safe_load path env =
       Raise (ETLSyncConfigException "не указан источник")) ∧
  (absent_or_empty config "destination" →
     is_raise (__init__ repr path_exists open_r safe_load path env) ∧
     ∀ s db, config !! "source" = Some s → _db_info repr s = Ok db →
       __init__ repr path_exists open_r safe_load path env =
         Raise (ETLSyncConfigException "не указан получатель")) ∧
  (absent_or_empty config "source" → absent_or_empty config "destination" →
     __init__ repr path_exists open_r safe_load path env =
       Raise (ETLSyncConfigException "не указан источник")).
Proof.
  intros Hload. rewrite (init_loaded _ _ _ _ _ _ _ Hload).
  split; [|split].
  - intros H. apply configure_source_falsy, absent_or_empty_falsy, H.
  - intros H. apply absent_or_empty_falsy in H. split.
    + apply configure_destination_falsy_raise, H.
    + intros s db Hs Hdb. eapply configure_destination_falsy_source_Ok; eassumption.
  - intros H _. apply configure_source_falsy, absent_or_empty_falsy, H.
Qed.

Lemma init_missing_section_witness :
  example_init {["destination" := example_endpoint]} =
    Raise (ETLSyncConfigException "не указан источник") ∧
  example_init {["source" := example_endpoint]} =
    Raise (ETLSyncConfigException "не указан получатель") ∧
  example_init (<["source" := VDict ∅]> {["mappings" := VList []]}) =
    Raise (ETLSyncConfigException "не указан источник").
Proof.
  split; [|split].
  - refine (proj1 (init_missing_section (λ _, Ok "") (λ _, true) (λ _, Ok "")
                     (λ _, Ok (VDict {["destination" := example_endpoint]}))
                     None LOCAL _ eq_refl) _).
    left. reflexivity.
  - refine (proj2 (proj1 (proj2 (init_missing_section (λ _, Ok "") (λ _, true)
                     (λ _, Ok "") (λ _, Ok (VDict {["source" := example_endpoint]}))
                     None LOCAL _ eq_refl)) _) example_endpoint _ eq_refl eq_refl).
    left. reflexivity.
  - refine (proj2 (proj2 (init_missing_section (λ _, Ok "") (λ _, true) (λ _, Ok "")
                     (λ _, Ok (VDict (<["source" := VDict ∅]>
                                        {["mappings" := VList []]})))
                     None LOCAL _ eq_refl)) _ _).
    + right. reflexivity.
    + left. reflexivity.
Defined.

(** C9. The section test is a truth test.  Let one file hold a document
    whose [source] (or [destination]) is a falsy value and another the
    same document without that key: the constructor raises on the first
    exactly what it raises on the second.  For [source] this is the
    source message; for [destination] it is the destination message once
    the source section has been accepted. *)
Theorem falsy_section_as_absent (repr : value → result string) (path_exists : string → bool)
    (open_r : string → result string) (safe_load : string → result value)
    (env : ENV) (p q : string) (config : gmap string value) (key : string)
    (v : value) :
  truthy v = false →
  key = "source" ∨ key = "destination" →
  _load_environment_config path_exists open_r safe_load p = Ok (<[key := v]> config) →
  _load_environment_config path_exists open_r safe_load q = Ok (delete key config) →
  __init__ repr path_exists open_r safe_load (Some p) env =
    __init__ repr path_exists open_r safe_load (Some q) env ∧
  is_raise (__init__ repr path_exists open_r safe_load (Some p) env) ∧
  (key = "source" →
     __init__ repr path_exists open_r safe_load (Some p) env =
       Raise (ETLSyncConfigException "не указан источник")) ∧
  (key = "destination" →
     ∀ s db, config !! "source" = Some s → _db_info repr s = Ok db →
       __init__ repr path_exists open_r safe_load (Some p) env =
         Raise (ETLSyncConfigException "не указан получатель")).
Proof.
  intros Hv Hkey Hp Hq.
  rewrite (init_loaded _ _ _ _ (Some p) env _ Hp).
  rewrite (init_loaded _ _ _ _ (Some q) env _ Hq).
  cbn [resolve_path].
  assert (Hfp : truthy (default (VDict ∅) (<[key := v]> config !! key)) = false)
    by (rewrite lookup_insert_eq; exact Hv).
  assert (Hfq : truthy (default (VDict ∅) (delete key config !! key)) = false)
    by (rewrite lookup_delete_eq; reflexivity).
  destruct Hkey as [-> | ->].
  - rewrite !configure_source_falsy by assumption.
    split; [reflexivity|]. split; [exact I|].
    split; [intros _; reflexivity | discriminate].
  - rewrite (configure_destination_falsy repr p _ Hfp).
    rewrite (configure_destination_falsy repr q _ Hfq).
    rewrite lookup_insert_ne, lookup_delete_ne by discriminate.
    split; [reflexivity|]. split; [|split].
    + destruct (negb _); [exact I|]. destruct (_db_info repr _); exact I.
    + discriminate.
    + intros _ s db Hs Hdb. rewrite Hs. cbn [from_option id].
      rewrite (db_info_Ok_truthy repr s db Hdb), Hdb. reflexivity.
Qed.

Lemma falsy_section_as_absent_witness :
  example_init_two (<["destination" := VInt 0]> {["source" := example_endpoint]})
      (delete "destination" {["source" := example_endpoint]}) "a.yml" =
    Raise (ETLSyncConfigException "не указан получатель") ∧
  example_init_two (<["source" := VStr ""]> {["destination" := example_endpoint]})
      (delete "source" {["destination" := example_endpoint]}) "a.yml" =
    example_init_two (<["source" := VStr ""]> {["destination" := example_endpoint]})
      (delete "source" {["destination" := example_endpoint]}) "b.yml".
Proof.
  split.
  - refine (proj2 (proj2 (proj2 (falsy_section_as_absent (λ _, Ok "") (λ _, true) Ok
              (example_two_files
                 (<["destination" := VInt 0]> {["source" := example_endpoint]})
                 (delete "destination" {["source" := example_endpoint]}))
              LOCAL "a.yml" "b.yml" {["source" := example_endpoint]} "destination"
              (VInt 0) eq_refl (or_intror eq_refl) eq_refl eq_refl)))
              eq_refl example_endpoint _ eq_refl eq_refl).
  - exact (proj1 (falsy_section_as_absent (λ _, Ok "") (λ _, true) Ok
              (example_two_files
                 (<["source" := VStr ""]> {["destination" := example_endpoint]})
                 (delete "source" {["destination" := example_endpoint]}))
              LOCAL "a.yml" "b.yml" {["destination" := example_endpoint]} "source"
              (VStr "") eq_refl (or_introl eq_refl) eq_refl eq_refl)).
Defined.

(** C10. An entry of [mappings] without [source] raises [KeyError] for
    [table]; an entry without [destination] raises, with that [KeyError]
    once its source table has been accepted.  The constructor therefore
    raises on a document with such an entry, with that [KeyError] when the
    endpoints and the entries before it are accepted.  Every table of a
    configuration the constructor returns was read, in document order,
    from a sub-section that is present and has a [table] entry. *)
Theorem mapping_entry_needs_table (repr : value → result string)
    (path_exists : string → bool) (open_r : string → result string)
    (safe_load : string → result value) (path : option string) (env : ENV)
    (config : gmap string value) :
  _load_environment_config path_exists open_r safe_load (resolve_path path env) =
    Ok config →
  (∀ m, m !! "source" = None →
     mapping_of_item repr (VDict m) = Raise (KeyError "table")) ∧
  (∀ m, m !! "destination" = None →
     is_raise (mapping_of_item repr (VDict m)) ∧
     ∀ s t, m !! "source" = Some s → _table_info repr s = Ok t →
       mapping_of_item repr (VDict m) = Raise (KeyError "table")) ∧
  (∀ items m,
     py_iter (default (VList []) (config !! "mappings")) = Ok items →
     VDict m ∈ items →
     m !! "source" = None ∨ m !! "destination" = None →
     is_raise (__init__ repr path_exists open_r safe_load path env)) ∧
  (∀ s d sdb ddb before m after accepted,
     config !! "source" = Some s → _db_info repr s = Ok sdb →
     config !! "destination" = Some d → _db_info repr d = Ok ddb →
     config !! "mappings" = Some (VList (before ++ VDict m :: after)) →
     mapM (mapping_of_item repr) before = Ok accepted →
     m !! "source" = None ∨
       (m !! "destination" = None ∧
        ∃ sub t, m !! "source" = Some sub ∧ _table_info repr sub = Ok t) →
     __init__ repr path_exists open_r safe_load path env = Raise (KeyError "table")) ∧
  (∀ cfg,
     __init__ repr path_exists open_r safe_load path env = Ok cfg →
     ∃ items,
       py_iter (default (VList []) (config !! "mappings")) = Ok items ∧
       Forall2 (λ item mp,
                  ∃ m, item = VDict m ∧
                       read_from repr (m !! "source") (source mp) ∧
                       read_from repr (m !! "destination") (destination mp))
               items (_mappings cfg)).
Proof.
  intros Hload. rewrite (init_loaded _ _ _ _ _ _ _ Hload).
  assert (Hdst : ∀ m s t, m !! "destination" = None → m !! "source" = Some s →
                   _table_info repr s = Ok t →
                   mapping_of_item repr (VDict m) = Raise (KeyError "table")).
  { intros m s t Hd Hs Ht. rewrite (mapping_of_item_no_destination repr m Hd), Hs.
    cbn [from_option id]. rewrite Ht. reflexivity. }
  assert (Hraise : ∀ m, m !! "source" = None ∨ m !! "destination" = None →
                     is_raise (mapping_of_item repr (VDict m))).
  { intros m [H | H].
    - rewrite (mapping_of_item_no_source repr m H). exact I.
    - rewrite (mapping_of_item_no_destination repr m H).
      destruct (_table_info repr _); exact I. }
  split; [|split; [|split; [|split]]].
  - apply mapping_of_item_no_source.
  - intros m H. split; [apply Hraise; right; exact H|].
    intros s t Hs Ht. eapply Hdst; eassumption.
  - intros items m Hit Hin Hm.
    eapply configure_item_raise; [exact Hit | exact Hin | apply Hraise, Hm].
  - intros s d sdb ddb before m after accepted Hs Hsdb Hd Hddb Hmap Hbefore Hm.
    rewrite (configure_endpoints_Ok repr _ config s d sdb ddb Hs Hsdb Hd Hddb), Hmap.
    cbn [from_option id py_iter]. rewrite bind_Ok.
    erewrite mapM_first_raise; [reflexivity | exact Hbefore |].
    destruct Hm as [Hm | (Hm & sub & t & Hsub & Ht)].
    + apply mapping_of_item_no_source, Hm.
    + eapply Hdst; eassumption.
  - intros cfg Hcfg.
    destruct (configure_Ok_inv repr _ config cfg Hcfg) as (items & Hit & Hms).
    exists items. split; [exact Hit|].
    apply mapM_Ok_Forall2 in Hms.
    eapply Forall2_impl; [exact Hms|].
    intros item mp H. apply mapping_of_item_Ok_inv, H.
Qed.

Lemma mapping_entry_needs_table_witness :
  example_init
    (example_document [example_entry; VDict example_entry_no_destination]) =
    Raise (KeyError "table") ∧
  mapping_of_item (λ _, Ok "") (VDict ∅) = Raise (KeyError "table") ∧
  ∃ cfg items,
    example_init (example_document [example_entry]) = Ok cfg ∧
    py_iter (default (VList [])
               (example_document [example_entry] !! "mappings")) = Ok items ∧
    Forall2 (λ item mp,
               ∃ m, item = VDict m ∧
                    read_from (λ _, Ok "") (m !! "source") (source mp) ∧
                    read_from (λ _, Ok "") (m !! "destination") (destination mp))
            items (_mappings cfg).
Proof.
  split; [|split].
  - destruct (mapping_entry_needs_table (λ _, Ok "") (λ _, true) (λ _, Ok "")
                (λ _, Ok (VDict (example_document
                   [example_entry; VDict example_entry_no_destination])))
                None LOCAL _ eq_refl) as (_ & _ & _ & H & _).
    eapply (H example_endpoint example_endpoint _ _ [example_entry]
              example_entry_no_destination [] _); try reflexivity.
    right. split; [reflexivity|].
    eexists _, _. split; reflexivity.
  - destruct (mapping_entry_needs_table (λ _, Ok "") (λ _, true) (λ _, Ok "")
                (λ _, Ok (VDict ∅)) None LOCAL _ eq_refl) as (H & _).
    apply H. reflexivity.
  - destruct (mapping_entry_needs_table (λ _, Ok "") (λ _, true) (λ _, Ok "")
                (λ _, Ok (VDict (example_document [example_entry])))
                None LOCAL _ eq_refl) as (_ & _ & _ & _ & H).
    destruct (example_init (example_document [example_entry])) as [cfg|e] eqn:E;
      [|vm_compute in E; discriminate].
    destruct (H cfg E) as (items & Hit & Hall).
    exists cfg, items. repeat split; assumption.
Defined.

(** ** The notion [first_absent] *)

Lemma first_absent_spec (m : gmap string value) (k : string) :
  first_absent m = Some k ↔
    (k = "database" ∧ m !! "database" = None) ∨
    (k = "user" ∧ is_Some (m !! "database") ∧ m !! "user" = None) ∨
    (k = "password" ∧ is_Some (m !! "database") ∧ is_Some (m !! "user") ∧
     m !! "password" = None).
Proof.
  unfold first_absent, required_keys, is_Some. cbn.
  destruct (m !! "database") as [d|], (m !! "user") as [u|],
    (m !! "password") as [p|]; naive_solver.
Qed.

(** Some required key is absent exactly when [first_absent] names one. *)
Lemma first_absent_is_Some (m : gmap string value) :
  is_Some (first_absent m) ↔ ∃ k, k ∈ required_keys ∧ m !! k = None.
Proof.
  unfold first_absent, required_keys. cbn. split.
  - destruct (m !! "database") eqn:Ed;
      [|intros _; exists "database"; split; [set_unfold; tauto | exact Ed]].
    destruct (m !! "user") eqn:Eu;
      [|intros _; exists "user"; split; [set_unfold; tauto | exact Eu]].
    destruct (m !! "password") eqn:Ep;
      [|intros _; exists "password"; split; [set_unfold; tauto | exact Ep]].
    intros [? [=]].
  - intros (k & Hk & Hm). set_unfold in Hk.
    destruct Hk as [-> | [-> | [-> | []]]]; rewrite ?Hm;
      repeat (match goal with |- context [match ?o with _ => _ end] =>
                destruct o end); eauto.
Qed.

(** * Further properties of the loader *)

(** ** Files and paths *)

(** X1. When the resolved path does not exist the constructor raises
    [FileNotFoundError] with a message that names that path; the file is
    neither opened nor parsed. *)
Theorem init_missing_file (repr : value → result string) (path_exists : string → bool)
    (open_r : string → result string) (safe_load : string → result value)
    (path : option string) (env : ENV) :
  path_exists (resolve_path path env) = false →
  __init__ repr path_exists open_r safe_load path env =
    Raise (FileNotFoundError ("Конфиг " ++ resolve_path path env ++ " не найден")).
Proof.
  intros H. apply init_not_loaded. apply load_missing_file, H.
Qed.

Lemma init_missing_file_witness :
  __init__ (λ _, Ok "") (λ _, false) (λ _, Raise (OSError "unreadable"))
    (λ _, Raise (YAMLError "malformed")) None DEV =
  Raise (FileNotFoundError "Конфиг dev.transform.yml не найден").
Proof.
  exact (init_missing_file (λ _, Ok "") (λ _, false) _ _ None DEV eq_refl).
Defined.

(** X2. An exception of [open] or of [yaml.safe_load] leaves the
    constructor as it is: it is not turned into an
    [ETLSyncConfigException]. *)
Theorem init_propagates_load_errors (repr : value → result string)
    (path_exists : string → bool) (open_r : string → result string)
    (safe_load : string → result value) (path : option string) (env : ENV)
    (e : exception) :
  path_exists (resolve_path path env) = true →
  open_r (resolve_path path env) = Raise e ∨
    (∃ text, open_r (resolve_path path env) = Ok text ∧ safe_load text = Raise e) →
  __init__ repr path_exists open_r safe_load path env = Raise e.
Proof.
  intros He H. apply init_not_loaded. unfold _load_environment_config.
  rewrite He. cbn [negb].
  destruct H as [-> | (text & -> & H)]; [reflexivity|].
  cbn. rewrite H. reflexivity.
Qed.

Lemma init_propagates_load_errors_witness :
  __init__ (λ _, Ok "") (λ _, true) (λ _, Ok "a: [") (λ _, Raise (YAMLError "malformed"))
    (Some "job.yml") TEST = Raise (YAMLError "malformed") ∧
  __init__ (λ _, Ok "") (λ _, true) (λ _, Raise (OSError "is a directory"))
    (λ _, Ok VNone) (Some "job.yml") TEST = Raise (OSError "is a directory").
Proof.
  split.
  - apply init_propagates_load_errors; [reflexivity|].
    right. exists "a: [". split; reflexivity.
  - apply init_propagates_load_errors; [reflexivity|]. left. reflexivity.
Defined.

Lemma configure_Ok_path (repr : value → result string) (p : string)
    (config : gmap string value) (cfg : ETLSyncConfig) :
  configure repr p config = Ok cfg → _path cfg = p.
Proof.
  unfold configure. cbv zeta.
  destruct (negb (truthy (default (VDict ∅) (config !! "source")))); [discriminate|].
  intros H. apply bind_Ok_inv in H as (sdb & _ & H).
  destruct (negb (truthy (default (VDict ∅) (config !! "destination")))); [discriminate|].
  apply bind_Ok_inv in H as (ddb & _ & H).
  apply bind_Ok_inv in H as (items & _ & H).
  apply bind_Ok_inv in H as (ms & _ & H).
  injection H as <-. reflexivity.
Qed.

Lemma init_Ok_loaded (repr : value → result string) (path_exists : string → bool)
    (open_r : string → result string) (safe_load : string → result value)
    (path : option string) (env : ENV) (cfg : ETLSyncConfig) :
  __init__ repr path_exists open_r safe_load path env = Ok cfg →
  ∃ config,
    _load_environment_config path_exists open_r safe_load (resolve_path path env) =
      Ok config ∧
    configure repr (resolve_path path env) config = Ok cfg.
Proof.
  unfold __init__. cbv zeta. intros H.
  apply bind_Ok_inv in H as (config & Hl & H). eauto.
Qed.

(** X3. With an explicit path the environment plays no part in the
    outcome, and the path kept in a returned configuration is the explicit
    path, or the default path when none is given. *)
Theorem init_explicit_path (repr : value → result string) (path_exists : string → bool)
    (open_r : string → result string) (safe_load : string → result value)
    (path : option string) (env : ENV) :
  (∀ p env', __init__ repr path_exists open_r safe_load (Some p) env =
             __init__ repr path_exists open_r safe_load (Some p) env') ∧
  (∀ cfg, __init__ repr path_exists open_r safe_load path env = Ok cfg →
          _path cfg = match path with
                      | Some p => p
                      | None => default_path env
                      end).
Proof.
  split; [reflexivity|].
  intros cfg H. apply init_Ok_loaded in H as (config & _ & H).
  apply configure_Ok_path in H. rewrite H. destruct path; reflexivity.
Qed.

Lemma init_explicit_path_witness :
  ∃ cfg, example_init (example_document []) = Ok cfg ∧
         _path cfg = "local.transform.yml".
Proof.
  destruct (example_init (example_document [])) as [cfg|e] eqn:E;
    [|vm_compute in E; discriminate].
  exists cfg. split; [reflexivity|].
  exact (proj2 (init_explicit_path (λ _, Ok "") (λ _, true) (λ _, Ok "")
                  (λ _, Ok (VDict (example_document []))) None LOCAL) cfg E).
Defined.

(** X4. Different environments read different default files. *)
Theorem default_path_injective (e1 e2 : ENV) :
  default_path e1 = default_path e2 → e1 = e2.
Proof.
  destruct e1, e2; vm_compute; intros H; try reflexivity; discriminate H.
Qed.

Lemma default_path_injective_witness : PROD = PROD.
Proof. exact (default_path_injective PROD PROD eq_refl). Defined.

(** ** Looking an environment up *)

(** X5. Looking up the value of a member gives the member back.  Looking
    up its symbolic name does so only for TEST and LOCAL: the names DEV and
    PROD, and with them the stems of their default files, are not values. *)
Theorem get_by_value_round_trip (e : ENV) :
  get_by_value (ENV_value e) = Ok e ∧
  (get_by_value (ENV_name e) = Ok e ↔ e = TEST ∨ e = LOCAL) ∧
  (e = DEV ∨ e = PROD →
   get_by_value (lower (ENV_name e)) = Raise (ValueError "нет такого значения")).
Proof.
  split; [destruct e; reflexivity|]. split; [split|].
  - destruct e; vm_compute; intros H; try discriminate H; auto.
  - intros [-> | ->]; reflexivity.
  - intros [-> | ->]; reflexivity.
Qed.

Lemma get_by_value_round_trip_witness :
  get_by_value "LOCAL" = Ok LOCAL ∧
  get_by_value "dev" = Raise (ValueError "нет такого значения").
Proof.
  split.
  - apply (proj2 (proj1 (proj2 (get_by_value_round_trip LOCAL)))). right. reflexivity.
  - apply (proj2 (proj2 (get_by_value_round_trip DEV))). left. reflexivity.
Defined.

(** X6. The lookup never returns a member whose value differs from the
    text in lower case, and the only exception it raises is the
    [ValueError] of line 45, raised when no member matches. *)
Theorem get_by_value_sound (s : string) :
  (∀ e, get_by_value s = Ok e → lower s = lower (ENV_value e)) ∧
  (∀ x, get_by_value s = Raise x →
        x = ValueError "нет такого значения" ∧
        ∀ e, lower s ≠ lower (ENV_value e)).
Proof.
  split.
  - intros e. apply get_by_value_Ok_iff.
  - intros x Hx.
    assert (Hno : ∀ e, lower s ≠ lower (ENV_value e)).
    { intros e He. apply get_by_value_match in He. congruence. }
    split; [|exact Hno].
    rewrite (get_by_value_no_match s Hno) in Hx. congruence.
Qed.

Lemma get_by_value_sound_witness :
  lower "PRODUCTION" = lower (ENV_value PROD) ∧
  ∀ e, lower "prod" ≠ lower (ENV_value e).
Proof.
  split.
  - apply (proj1 (get_by_value_sound "PRODUCTION") PROD). reflexivity.
  - apply (proj2 (get_by_value_sound "prod") (ValueError "нет такого значения")).
    reflexivity.
Defined.

(** ** Turning lists into text *)

Lemma mapM_Raise_first {A B} (f : A → result B) (l : list A) (e : exception) :
  mapM f l = Raise e → ∃ x, x ∈ l ∧ f x = Raise e.
Proof.
  induction l as [|x l IH]; [discriminate|].
  cbn. destruct (f x) as [y|e'] eqn:Ex.
  - cbn. destruct (mapM f l) as [k|e''] eqn:El; [discriminate|].
    cbn. intros [= ->]. destruct (IH eq_refl) as (x' & Hin & Hx).
    exists x'. split; [right; exact Hin | exact Hx].
  - cbn. intros [= ->]. exists x. split; [left | exact Ex].
Qed.

Lemma mapM_py_str_Ok_converts (repr : value → result string) (l : list value)
    (ss : list string) :
  mapM (py_str repr) l = Ok ss → ∀ x, x ∈ l → converts repr x.
Proof.
  intros H x Hx. apply mapM_Ok_Forall2 in H.
  apply list_elem_of_lookup in Hx as [i Hi].
  destruct (Forall2_lookup_l _ _ _ _ _ H Hi) as (s & _ & Hs).
  exists s. exact Hs.
Qed.

(** What [str] raises: the [ValueError] of an integer that is too long, or
    what [repr] raises on a list or a dict. *)
Lemma py_str_Raise_inv (repr : value → result string) (x : value) (e : exception) :
  py_str repr x = Raise e →
  (∃ n, x = VInt n ∧ (int_max_str_limit <= Z.abs n)%Z ∧
        e = ValueError int_max_str_error) ∨
  ((is_list x = true ∨ is_dict x = true) ∧ repr x = Raise e).
Proof.
  destruct x as [|[]|n| | | |]; try discriminate.
  - rewrite py_str_VInt.
    destruct (int_max_str_limit <=? Z.abs n)%Z eqn:E; [|discriminate].
    intros [= <-]. left. exists n. repeat split. apply Z.leb_le, E.
  - intros H. right. split; [left; reflexivity | exact H].
  - intros H. right. split; [right; reflexivity | exact H].
Qed.

Section RaiseInversion.

Context (repr : value → result string).

(** A default that [str] turns into text raises nothing: the exception
    comes from the value the section gives. *)
Lemma py_str_default_Raise (o : option value) (dflt : value) (e : exception) :
  converts repr dflt → py_str repr (default dflt o) = Raise e →
  ∃ x, o = Some x ∧ py_str repr x = Raise e.
Proof.
  intros [sd Hd] H. destruct o as [x|]; cbn in H; [eauto|].
  rewrite Hd in H. discriminate H.
Qed.

(** Where an exception of [_db_info] on a dict comes from. *)
Lemma db_info_Raise_inv (m : gmap string value) (e : exception) :
  _db_info repr (VDict m) = Raise e →
  (∃ k, k ∈ required_keys ∧ m !! k = None ∧ e = KeyError k) ∨
  (∃ k x, k ∈ db_keys ∧ m !! k = Some x ∧ py_str repr x = Raise e).
Proof.
  rewrite db_info_dict. intros H.
  destruct (py_str repr (default (VStr "127.0.0.1") (m !! "host"))) as [sh|e1] eqn:E1.
  2:{ injection H as <-.
      apply py_str_default_Raise in E1 as (x & Hx & Hr); [|apply converts_VStr].
      right. exists "host", x. split; [unfold db_keys; set_unfold; tauto|].
      split; assumption. }
  cbn in H.
  destruct (py_str repr (default (VInt 5432) (m !! "post"))) as [sp|e2] eqn:E2.
  2:{ injection H as <-.
      apply py_str_default_Raise in E2 as (x & Hx & Hr);
        [|eexists; apply py_str_default_port].
      right. exists "post", x. split; [unfold db_keys; set_unfold; tauto|].
      split; assumption. }
  cbn in H.
  destruct (m !! "database") as [d|] eqn:Ed.
  2:{ injection H as <-. left. exists "database".
      split; [unfold required_keys; set_unfold; tauto|].
      split; [exact Ed | reflexivity]. }
  destruct (py_str repr d) as [sd|e3] eqn:E3.
  2:{ injection H as <-. right. exists "database", d.
      split; [unfold db_keys; set_unfold; tauto|]. split; [exact Ed | exact E3]. }
  cbn in H.
  destruct (m !! "user") as [u|] eqn:Eu.
  2:{ injection H as <-. left. exists "user".
      split; [unfold required_keys; set_unfold; tauto|].
      split; [exact Eu | reflexivity]. }
  destruct (py_str repr u) as [su|e4] eqn:E4.
  2:{ injection H as <-. right. exists "user", u.
      split; [unfold db_keys; set_unfold; tauto|]. split; [exact Eu | exact E4]. }
  cbn in H.
  destruct (m !! "password") as [p|] eqn:Ep.
  2:{ injection H as <-. left. exists "password".
      split; [unfold required_keys; set_unfold; tauto|].
      split; [exact Ep | reflexivity]. }
  destruct (py_str repr p) as [sw|e5] eqn:E5.
  2:{ injection H as <-. right. exists "password", p.
      split; [unfold db_keys; set_unfold; tauto|]. split; [exact Ep | exact E5]. }
  discriminate H.
Qed.

(** Where an exception of [_table_info] on a dict comes from. *)
Lemma table_info_Raise_inv (m : gmap string value) (e : exception) :
  _table_info repr (VDict m) = Raise e →
  (is_list (default (VList []) (m !! "columns")) = false ∧
   e = ETLSyncConfigException "columns") ∨
  (is_list (default (VList []) (m !! "pk")) = false ∧
   e = ETLSyncConfigException "pk") ∨
  (m !! "table" = None ∧ e = KeyError "table") ∨
  (∃ x, py_str repr x = Raise e ∧
        (m !! "schema" = Some x ∨ m !! "table" = Some x ∨
         (∃ cs, m !! "columns" = Some (VList cs) ∧ x ∈ cs) ∨
         (∃ ks, m !! "pk" = Some (VList ks) ∧ x ∈ ks))).
Proof.
  rewrite table_info_dict. intros H.
  destruct (default (VList []) (m !! "columns")) as [| | | | |cs|] eqn:Ec;
    try (injection H as <-; left; split; reflexivity).
  destruct (default (VList []) (m !! "pk")) as [| | | | |ks|] eqn:Ek;
    try (injection H as <-; right; left; split; reflexivity).
  do 2 right.
  destruct (py_str repr (default (VStr "public") (m !! "schema"))) as [ss|e1] eqn:E1.
  2:{ injection H as <-.
      apply py_str_default_Raise in E1 as (x & Hx & Hr); [|apply converts_VStr].
      right. exists x. split; [exact Hr | left; exact Hx]. }
  cbn in H.
  destruct (m !! "table") as [tv|] eqn:Et.
  2:{ injection H as <-. left. split; reflexivity. }
  right.
  destruct (py_str repr tv) as [st|e2] eqn:E2.
  2:{ injection H as <-. exists tv. split; [exact E2 | right; left; reflexivity]. }
  cbn in H.
  destruct (mapM (py_str repr) cs) as [sc|e3] eqn:E3.
  2:{ injection H as <-.
      apply mapM_Raise_first in E3 as (x & Hin & Hx).
      exists x. split; [exact Hx|]. right. right. left.
      destruct (m !! "columns") as [c|]; cbn in Ec;
        [subst c; eauto | injection Ec as <-; inversion Hin]. }
  cbn in H.
  destruct (mapM (py_str repr) ks) as [sk|e4] eqn:E4.
  2:{ injection H as <-.
      apply mapM_Raise_first in E4 as (x & Hin & Hx).
      exists x. split; [exact Hx|]. right. right. right.
      destruct (m !! "pk") as [c|]; cbn in Ek;
        [subst c; eauto | injection Ek as <-; inversion Hin]. }
  discriminate H.
Qed.

End RaiseInversion.

(** ** Endpoint sections *)

(** X7. A dict is accepted as an endpoint exactly when it has the keys
    [database], [user] and [password] and [str] turns into text every
    value it gives for the five keys that are read; the values may be
    empty or null, and whatever else the dict holds plays no part. *)
Theorem db_info_accepts_iff (repr : value → result string) (m : gmap string value) :
  (∃ db, _db_info repr (VDict m) = Ok db) ↔
  is_Some (m !! "database") ∧ is_Some (m !! "user") ∧ is_Some (m !! "password") ∧
  ∀ k v, k ∈ db_keys → m !! k = Some v → converts repr v.
Proof.
  split.
  - intros [db H].
    apply db_info_Ok_iff in H as (d & u & p & Hd & Hu & Hp & Hh & Ho & Hsd & Hsu & Hsp).
    split; [eauto|]. split; [eauto|]. split; [eauto|].
    intros k v Hk Hv. unfold db_keys in Hk. set_unfold in Hk.
    destruct Hk as [-> | [-> | [-> | [-> | [-> | []]]]]].
    + rewrite Hv in Hh. eexists. exact Hh.
    + rewrite Hv in Ho. eexists. exact Ho.
    + rewrite Hd in Hv. injection Hv as <-. eexists. exact Hsd.
    + rewrite Hu in Hv. injection Hv as <-. eexists. exact Hsu.
    + rewrite Hp in Hv. injection Hv as <-. eexists. exact Hsp.
  - intros ([d Hd] & [u Hu] & [p Hp] & Hc).
    assert (Hkey : ∀ key v, m !! key = Some v → key ∈ db_keys → converts repr v)
      by (intros key v H1 H2; eapply Hc; eassumption).
    destruct (converts_default repr (m !! "host") (VStr "127.0.0.1")) as [sh Hsh];
      [apply converts_VStr
      |intros v Hv; apply (Hkey "host" v Hv); unfold db_keys; set_unfold; tauto|].
    destruct (converts_default repr (m !! "post") (VInt 5432)) as [so Hso];
      [eexists; apply py_str_default_port
      |intros v Hv; apply (Hkey "post" v Hv); unfold db_keys; set_unfold; tauto|].
    destruct (Hkey "database" d Hd) as [sd Hsd]; [unfold db_keys; set_unfold; tauto|].
    destruct (Hkey "user" u Hu) as [su Hsu]; [unfold db_keys; set_unfold; tauto|].
    destruct (Hkey "password" p Hp) as [sp Hsp]; [unfold db_keys; set_unfold; tauto|].
    exists {| host := sh; port := so; database := sd; user := su; password := sp |}.
    apply db_info_Ok_iff. exists d, u, p. repeat split; assumption.
Qed.

Lemma db_info_accepts_iff_witness :
  ∃ db, _db_info (λ _, Ok "")
          (VDict (<["database" := VNone]> (<["user" := VStr ""]>
                 {["password" := VInt 0]}))) = Ok db.
Proof.
  apply db_info_accepts_iff.
  split; [|split; [|split]]; try (eexists; reflexivity).
  intros k v _ Hv.
  destruct (decide (k = "database")) as [->|H1];
    [vm_compute in Hv; injection Hv as <-; eexists; reflexivity|].
  destruct (decide (k = "user")) as [->|H2];
    [vm_compute in Hv; injection Hv as <-; eexists; reflexivity|].
  destruct (decide (k = "password")) as [->|H3];
    [vm_compute in Hv; injection Hv as <-; eexists; vm_compute; reflexivity|].
  rewrite !lookup_insert_ne, lookup_singleton_ne in Hv by congruence.
  discriminate Hv.
Defined.

(** X8. Only the keys [host], [post], [database], [user] and [password] are
    read: two sections that agree on them give the same outcome. *)
Theorem db_info_other_keys_unread (repr : value → result string)
    (m1 m2 : gmap string value) :
  (∀ k, k ∈ db_keys → m1 !! k = m2 !! k) →
  _db_info repr (VDict m1) = _db_info repr (VDict m2).
Proof.
  intros H. rewrite !db_info_dict.
  rewrite (H "host"), (H "post"), (H "database"), (H "user"), (H "password");
    [reflexivity|..]; unfold db_keys; set_unfold; tauto.
Qed.

Lemma db_info_other_keys_unread_witness :
  _db_info (λ _, Ok "")
    (VDict (<["port" := VInt 5433]> (<["sslmode" := VStr "require"]>
           (<["database" := VStr "etl"]> (<["user" := VStr "u"]>
           {["password" := VStr "p"]}))))) =
  _db_info (λ _, Ok "")
    (VDict (<["database" := VStr "etl"]> (<["user" := VStr "u"]>
           {["password" := VStr "p"]}))).
Proof.
  apply db_info_other_keys_unread. intros k Hk.
  unfold db_keys in Hk. set_unfold in Hk.
  destruct Hk as [-> | [-> | [-> | [-> | [-> | []]]]]]; reflexivity.
Defined.

(** X9. [_db_info] raises nothing but [AttributeError], on a value that is
    not a dict, [KeyError], for a required key the dict lacks, and what
    [str] raises on a value it reads: [ValueError] for an integer of more
    than 4300 digits, or the exception of [repr] on a list or a dict. *)
Theorem db_info_errors (repr : value → result string) (v : value) (e : exception) :
  _db_info repr v = Raise e →
  (is_dict v = false ∧ e = AttributeError (type_name v) "get") ∨
  (∃ m k, v = VDict m ∧ k ∈ required_keys ∧ m !! k = None ∧ e = KeyError k) ∨
  (∃ m k x, v = VDict m ∧ k ∈ db_keys ∧ m !! k = Some x ∧
            py_str repr x = Raise e ∧
            (is_list x = false → is_dict x = false →
             e = ValueError int_max_str_error)).
Proof.
  destruct v as [| | | | | |m];
    try (intros [= <-]; left; split; reflexivity).
  intros H. right.
  apply db_info_Raise_inv in H as [(k & Hk & Hm & ->) | (k & x & Hk & Hm & Hx)].
  - left. exists m, k. repeat split; assumption.
  - right. exists m, k, x. repeat split; try assumption.
    intros Hl Hd.
    apply py_str_Raise_inv in Hx as [(n & _ & _ & He) | ([Hc | Hc] & _)];
      [exact He | congruence | congruence].
Qed.

Lemma db_info_errors_witness :
  ∃ m k x, VDict (<["database" := VInt example_huge_int]> ∅) = VDict m ∧
           k ∈ db_keys ∧ m !! k = Some x ∧
           py_str (λ _, Ok "") x = Raise (ValueError int_max_str_error).
Proof.
  destruct (db_info_errors (λ _, Ok "")
              (VDict (<["database" := VInt example_huge_int]> ∅))
              (ValueError int_max_str_error))
    as [[H _] | [(m & k & _ & _ & _ & H) | (m & k & x & Hm & Hk & Hx & He & _)]].
  - vm_compute. reflexivity.
  - discriminate H.
  - discriminate H.
  - exists m, k, x. repeat split; assumption.
Defined.

(** An endpoint is read back from the section that gives its five fields
    as strings. *)
Lemma db_info_db_section (repr : value → result string) (db : SyncConfigDB) :
  _db_info repr (VDict (db_section db)) = Ok db.
Proof.
  apply db_info_Ok_iff. unfold db_section.
  exists (VStr (database db)), (VStr (user db)), (VStr (password db)).
  repeat (rewrite lookup_insert_eq || rewrite lookup_singleton_eq ||
          rewrite lookup_insert_ne by discriminate).
  repeat split.
Qed.

(** ** Table sections *)

(** X10. A dict is accepted as a table exactly when [columns] and [pk] are
    each absent or a list, [table] is present, and [str] turns into text
    the schema, the table and every element of the two lists. *)
Theorem table_info_accepts_iff (repr : value → result string) (m : gmap string value) :
  (∃ t, _table_info repr (VDict m) = Ok t) ↔
  ∃ cs ks tv,
    default (VList []) (m !! "columns") = VList cs ∧
    default (VList []) (m !! "pk") = VList ks ∧
    m !! "table" = Some tv ∧
    converts repr (default (VStr "public") (m !! "schema")) ∧
    converts repr tv ∧
    (∀ x, x ∈ cs → converts repr x) ∧
    (∀ x, x ∈ ks → converts repr x).
Proof.
  split.
  - intros [t H].
    apply table_info_Ok_iff in H as (cs & ks & tv & Hc & Hk & Ht & Hs & Hst & Hsc & Hsk).
    exists cs, ks, tv. repeat split; try assumption.
    + eexists. exact Hs.
    + eexists. exact Hst.
    + eapply mapM_py_str_Ok_converts, Hsc.
    + eapply mapM_py_str_Ok_converts, Hsk.
  - intros (cs & ks & tv & Hc & Hk & Ht & [ss Hs] & [st Hst] & Hac & Hak).
    destruct (mapM_py_str_converts repr cs Hac) as [sc Hsc].
    destruct (mapM_py_str_converts repr ks Hak) as [sk Hsk].
    exists {| schema := ss; table := st; columns := sc; pk := sk |}.
    apply table_info_Ok_iff. exists cs, ks, tv. repeat split; assumption.
Qed.

Lemma table_info_accepts_iff_witness :
  ∃ t, _table_info (λ _, Ok "")
         (VDict (<["table" := VStr "orders"]> {["pk" := VList [VStr "id"]]})) = Ok t.
Proof.
  apply table_info_accepts_iff. exists [], [VStr "id"], (VStr "orders").
  repeat split; try apply converts_VStr.
  - intros x Hx. inversion Hx.
  - intros x Hx. apply list_elem_of_singleton in Hx as ->. apply converts_VStr.
Defined.

(** X11. Only the keys [columns], [pk], [schema] and [table] are read. *)
Theorem table_info_other_keys_unread (repr : value → result string)
    (m1 m2 : gmap string value) :
  (∀ k, k ∈ table_keys → m1 !! k = m2 !! k) →
  _table_info repr (VDict m1) = _table_info repr (VDict m2).
Proof.
  intros H. rewrite !table_info_dict.
  rewrite (H "columns"), (H "pk"), (H "schema"), (H "table");
    [reflexivity|..]; unfold table_keys; set_unfold; tauto.
Qed.

Lemma table_info_other_keys_unread_witness :
  _table_info (λ _, Ok "")
    (VDict (<["where" := VStr "id > 0"]> {["table" := VStr "orders"]})) =
  _table_info (λ _, Ok "") (VDict {["table" := VStr "orders"]}).
Proof.
  apply table_info_other_keys_unread. intros k Hk.
  unfold table_keys in Hk. set_unfold in Hk.
  destruct Hk as [-> | [-> | [-> | [-> | []]]]]; reflexivity.
Defined.

(** X12. [_table_info] raises nothing but [AttributeError], on a value
    that is not a dict, [ETLSyncConfigException] named columns or pk, for an
    entry that is not a list, [KeyError] for a missing [table], and what
    [str] raises on the schema, the table or an element of the two lists. *)
Theorem table_info_errors (repr : value → result string) (v : value) (e : exception) :
  _table_info repr v = Raise e →
  (is_dict v = false ∧ e = AttributeError (type_name v) "get") ∨
  (∃ m, v = VDict m ∧
     ((is_list (default (VList []) (m !! "columns")) = false ∧
       e = ETLSyncConfigException "columns") ∨
      (is_list (default (VList []) (m !! "pk")) = false ∧
       e = ETLSyncConfigException "pk") ∨
      (m !! "table" = None ∧ e = KeyError "table") ∨
      (∃ x, py_str repr x = Raise e ∧
            (m !! "schema" = Some x ∨ m !! "table" = Some x ∨
             (∃ cs, m !! "columns" = Some (VList cs) ∧ x ∈ cs) ∨
             (∃ ks, m !! "pk" = Some (VList ks) ∧ x ∈ ks))))).
Proof.
  destruct v as [| | | | | |m];
    try (intros [= <-]; left; split; reflexivity).
  intros H. right. exists m. split; [reflexivity|].
  apply table_info_Raise_inv, H.
Qed.

Lemma table_info_errors_witness :
  (is_dict VNone = false ∧
   AttributeError "NoneType" "get" = AttributeError (type_name VNone) "get") ∨
  (∃ m, VNone = VDict m ∧
     ((is_list (default (VList []) (m !! "columns")) = false ∧
       AttributeError "NoneType" "get" = ETLSyncConfigException "columns") ∨
      (is_list (default (VList []) (m !! "pk")) = false ∧
       AttributeError "NoneType" "get" = ETLSyncConfigException "pk") ∨
      (m !! "table" = None ∧ AttributeError "NoneType" "get" = KeyError "table") ∨
      (∃ x, py_str (λ _, Ok "") x = Raise (AttributeError "NoneType" "get") ∧
            (m !! "schema" = Some x ∨ m !! "table" = Some x ∨
             (∃ cs, m !! "columns" = Some (VList cs) ∧ x ∈ cs) ∨
             (∃ ks, m !! "pk" = Some (VList ks) ∧ x ∈ ks))))).
Proof.
  exact (table_info_errors (λ _, Ok "") VNone (AttributeError "NoneType" "get") eq_refl).
Defined.

(** A table is read back from the section that gives its schema and name
    as strings and its columns and keys as lists of strings. *)
Lemma table_info_table_section (repr : value → result string) (t : SyncConfigTable) :
  _table_info repr (VDict (table_section t)) = Ok t.
Proof.
  apply table_info_Ok_iff. unfold table_section.
  exists (VStr <$> columns t), (VStr <$> pk t), (VStr (table t)).
  repeat (rewrite lookup_insert_eq || rewrite lookup_singleton_eq ||
          rewrite lookup_insert_ne by discriminate).
  repeat split; apply mapM_py_str_VStr.
Qed.

(** X13. In an accepted table the columns and the keys are the elements of
    the lists of the section, each turned into text by [str], in the same
    order and number; an absent list gives the empty tuple and an absent
    schema gives public. *)
Theorem table_info_elements (repr : value → result string) (m : gmap string value)
    (t : SyncConfigTable) :
  _table_info repr (VDict m) = Ok t →
  (∀ cs, m !! "columns" = Some (VList cs) →
     mapM (py_str repr) cs = Ok (columns t) ∧
     Forall2 (λ x s, py_str repr x = Ok s) cs (columns t) ∧
     List.length (columns t) = List.length cs) ∧
  (∀ ks, m !! "pk" = Some (VList ks) →
     mapM (py_str repr) ks = Ok (pk t) ∧
     Forall2 (λ x s, py_str repr x = Ok s) ks (pk t) ∧
     List.length (pk t) = List.length ks) ∧
  (m !! "columns" = None → columns t = []) ∧
  (m !! "pk" = None → pk t = []) ∧
  (m !! "schema" = None → schema t = "public").
Proof.
  intros H.
  apply table_info_Ok_iff in H as (cs0 & ks0 & tv & Ec & Ek & _ & Hs & _ & Hc & Hk).
  split; [|split; [|split; [|split]]].
  - intros cs Hcs. rewrite Hcs in Ec. simpl in Ec. injection Ec as <-.
    pose proof (mapM_Ok_Forall2 _ _ _ Hc) as HF.
    split; [exact Hc|]. split; [exact HF|].
    symmetry. eapply Forall2_length, HF.
  - intros ks Hks. rewrite Hks in Ek. simpl in Ek. injection Ek as <-.
    pose proof (mapM_Ok_Forall2 _ _ _ Hk) as HF.
    split; [exact Hk|]. split; [exact HF|].
    symmetry. eapply Forall2_length, HF.
  - intros Hn. rewrite Hn in Ec. simpl in Ec. injection Ec as <-.
    cbn in Hc. injection Hc as <-. reflexivity.
  - intros Hn. rewrite Hn in Ek. simpl in Ek. injection Ek as <-.
    cbn in Hk. injection Hk as <-. reflexivity.
  - intros Hn. rewrite Hn in Hs. cbn in Hs. injection Hs as <-. reflexivity.
Qed.

Lemma table_info_elements_witness :
  ∃ t, _table_info (λ _, Ok "")
         (VDict (<["table" := VStr "orders"]>
                {["columns" := VList [VStr "id"; VInt 7; VBool true; VNone]]})) = Ok t ∧
       columns t = ["id"; "7"; "True"; "None"] ∧ pk t = [] ∧ schema t = "public".
Proof.
  destruct (_table_info (λ _, Ok "")
              (VDict (<["table" := VStr "orders"]>
                     {["columns" := VList [VStr "id"; VInt 7; VBool true; VNone]]})))
    as [t|e] eqn:E; [|vm_compute in E; discriminate].
  exists t. split; [reflexivity|].
  destruct (table_info_elements (λ _, Ok "") _ t E) as (Hc & _ & _ & Hk & Hs).
  split; [|split].
  - destruct (Hc [VStr "id"; VInt 7; VBool true; VNone]) as (H & _); [reflexivity|].
    assert (H' : Ok (columns t) = Ok ["id"; "7"; "True"; "None"])
      by (rewrite <- H; vm_compute; reflexivity).
    injection H' as ->. reflexivity.
  - apply Hk. reflexivity.
  - apply Hs. reflexivity.
Defined.

(** ** Entries of [mappings] *)


Lemma mapM_fmap_Ok {A B} (f : A → result B) (g : B → A) (l : list B) :
  (∀ y, f (g y) = Ok y) → mapM f (g <$> l) = Ok l.
Proof.
  intros H. induction l as [|y l IH]; [reflexivity|].
  cbn. rewrite H. cbn. rewrite IH. reflexivity.
Qed.

(** X14. An entry that is not a dict raises [AttributeError].  An entry
    that is a dict raises what its source sub-section raises and, when
    that one is accepted, what its destination sub-section raises. *)
Theorem mapping_of_item_errors (repr : value → result string) (item : value)
    (e : exception) :
  mapping_of_item repr item = Raise e →
  (is_dict item = false ∧ e = AttributeError (type_name item) "get") ∨
  (∃ m, item = VDict m ∧
     (_table_info repr (default (VDict ∅) (m !! "source")) = Raise e ∨
      (∃ t, _table_info repr (default (VDict ∅) (m !! "source")) = Ok t ∧
            _table_info repr (default (VDict ∅) (m !! "destination")) = Raise e))).
Proof.
  destruct item as [| | | | | |m];
    try (intros [= <-]; left; split; reflexivity).
  rewrite mapping_of_item_dict. intros H. right. exists m.
  split; [reflexivity|].
  destruct (_table_info repr (default (VDict ∅) (m !! "source"))) as [t|e1];
    [|injection H as <-; left; reflexivity].
  right. exists t. split; [reflexivity|].
  cbn in H.
  destruct (_table_info repr (default (VDict ∅) (m !! "destination")));
    [discriminate H | injection H as <-; reflexivity].
Qed.

Lemma mapping_of_item_errors_witness :
  (is_dict (VStr "orders") = false ∧
   AttributeError "str" "get" = AttributeError (type_name (VStr "orders")) "get") ∨
  (∃ m, VStr "orders" = VDict m ∧
     (_table_info (λ _, Ok "") (default (VDict ∅) (m !! "source")) =
        Raise (AttributeError "str" "get") ∨
      (∃ t, _table_info (λ _, Ok "") (default (VDict ∅) (m !! "source")) = Ok t ∧
            _table_info (λ _, Ok "") (default (VDict ∅) (m !! "destination")) =
              Raise (AttributeError "str" "get")))).
Proof.
  exact (mapping_of_item_errors (λ _, Ok "") (VStr "orders")
           (AttributeError "str" "get") eq_refl).
Defined.

(** X15. A sub-section that is present but not a dict, such as an empty
    [source:] that the parser reads as [None], is not replaced by the
    default: the entry raises [AttributeError]. *)
Theorem mapping_subsection_not_dict (repr : value → result string)
    (m : gmap string value) (v : value) :
  is_dict v = false →
  (m !! "source" = Some v →
   mapping_of_item repr (VDict m) = Raise (AttributeError (type_name v) "get")) ∧
  (m !! "destination" = Some v →
   ∀ t, _table_info repr (default (VDict ∅) (m !! "source")) = Ok t →
   mapping_of_item repr (VDict m) = Raise (AttributeError (type_name v) "get")).
Proof.
  intros Hv. rewrite mapping_of_item_dict. split.
  - intros ->. cbn [from_option id]. rewrite (table_info_not_dict repr v Hv).
    reflexivity.
  - intros -> t ->. cbn [from_option id]. rewrite (table_info_not_dict repr v Hv).
    reflexivity.
Qed.

Lemma mapping_subsection_not_dict_witness :
  mapping_of_item (λ _, Ok "")
    (VDict (<["source" := VNone]> {["destination" := VDict {["table" := VStr "b"]}]})) =
    Raise (AttributeError "NoneType" "get") ∧
  mapping_of_item (λ _, Ok "")
    (VDict (<["source" := VDict {["table" := VStr "a"]}]> {["destination" := VList []]})) =
    Raise (AttributeError "list" "get").
Proof.
  split.
  - exact (proj1 (mapping_subsection_not_dict (λ _, Ok "")
             (<["source" := VNone]> {["destination" := VDict {["table" := VStr "b"]}]})
             VNone eq_refl) eq_refl).
  - exact (proj2 (mapping_subsection_not_dict (λ _, Ok "")
             (<["source" := VDict {["table" := VStr "a"]}]>
                {["destination" := VList []]})
             (VList []) eq_refl) eq_refl
             {| schema := "public"; table := "a"; columns := []; pk := [] |} eq_refl).
Defined.

(** A mapping is read back from the entry whose two sub-sections hold its
    tables. *)
Lemma mapping_of_item_mapping_item (repr : value → result string)
    (mp : SyncConfigMapping) :
  mapping_of_item repr (mapping_item mp) = Ok mp.
Proof.
  unfold mapping_item. rewrite mapping_of_item_dict.
  rewrite lookup_insert_eq, lookup_insert_ne by discriminate.
  rewrite lookup_singleton_eq. cbn [from_option id].
  rewrite !table_info_table_section. destruct mp; reflexivity.
Qed.

(** ** The constructor, step by step *)

Section Configure.

Context (repr : value → result string).

Lemma configure_source_raise (p : string) (config : gmap string value)
    (e : exception) :
  truthy (default (VDict ∅) (config !! "source")) = true →
  _db_info repr (default (VDict ∅) (config !! "source")) = Raise e →
  configure repr p config = Raise e.
Proof.
  intros Ht He. unfold configure. cbv zeta. rewrite Ht, He. reflexivity.
Qed.

Lemma configure_destination_raise (p : string) (config : gmap string value)
    (s : value) (sdb : SyncConfigDB) (e : exception) :
  config !! "source" = Some s → _db_info repr s = Ok sdb →
  truthy (default (VDict ∅) (config !! "destination")) = true →
  _db_info repr (default (VDict ∅) (config !! "destination")) = Raise e →
  configure repr p config = Raise e.
Proof.
  intros Hs Hsdb Ht He. unfold configure. cbv zeta.
  rewrite Hs. cbn [from_option id].
  rewrite (db_info_Ok_truthy repr s sdb Hsdb), Hsdb, Ht, He. reflexivity.
Qed.

(** An accepted section is present: the default section is empty. *)
Lemma db_info_default_Ok (sub : option value) (db : SyncConfigDB) :
  _db_info repr (default (VDict ∅) sub) = Ok db →
  ∃ m, sub = Some (VDict m) ∧ _db_info repr (VDict m) = Ok db.
Proof.
  destruct sub as [v|]; cbn [from_option id]; [|discriminate].
  destruct v as [| | | | | |m]; try discriminate. eauto.
Qed.

Lemma configure_Ok_sections (p : string) (config : gmap string value)
    (cfg : ETLSyncConfig) :
  configure repr p config = Ok cfg →
  ∃ s d,
    config !! "source" = Some (VDict s) ∧
    _db_info repr (VDict s) = Ok (_source cfg) ∧
    config !! "destination" = Some (VDict d) ∧
    _db_info repr (VDict d) = Ok (_destination cfg).
Proof.
  unfold configure. cbv zeta.
  destruct (negb (truthy (default (VDict ∅) (config !! "source")))); [discriminate|].
  intros H. apply bind_Ok_inv in H as (sdb & Hs & H).
  destruct (negb (truthy (default (VDict ∅) (config !! "destination")))); [discriminate|].
  apply bind_Ok_inv in H as (ddb & Hd & H).
  apply bind_Ok_inv in H as (items & _ & H).
  apply bind_Ok_inv in H as (ms & _ & H).
  injection H as <-. cbn [_source _destination].
  apply db_info_default_Ok in Hs as (s & Hs & Hsdb).
  apply db_info_default_Ok in Hd as (d & Hd & Hddb).
  exists s, d. repeat split; assumption.
Qed.


End Configure.





Lemma py_iter_not_iterable (v : value) :
  not_iterable v = true → py_iter v = Raise (TypeError (type_name v)).
Proof. destruct v; (discriminate || reflexivity). Qed.

Section InitProperties.

Context (repr : value → result string) (path_exists : string → bool).
Context (open_r : string → result string) (safe_load : string → result value).

Local Abbreviation load := (_load_environment_config path_exists open_r safe_load).
Local Abbreviation init := (__init__ repr path_exists open_r safe_load).

(** X16. The endpoints come first.  What [_db_info] raises on a truthy
    source section is what the constructor raises, whatever the rest of
    the document holds; once the source is accepted the same holds for the
    destination section, whatever [mappings] holds. *)
Theorem init_endpoint_errors_first (path : option string) (env : ENV)
    (config : gmap string value) :
  load (resolve_path path env) = Ok config →
  (∀ s e, config !! "source" = Some s → truthy s = true →
          _db_info repr s = Raise e → init path env = Raise e) ∧
  (∀ s sdb d e, config !! "source" = Some s → _db_info repr s = Ok sdb →
                config !! "destination" = Some d → truthy d = true →
                _db_info repr d = Raise e → init path env = Raise e).
Proof.
  intros Hload. rewrite (init_loaded _ _ _ _ _ _ _ Hload). split.
  - intros s e Hs Ht He. apply configure_source_raise; rewrite Hs; assumption.
  - intros s sdb d e Hs Hsdb Hd Ht He.
    eapply configure_destination_raise; try eassumption; rewrite Hd; assumption.
Qed.

(** X17. A section that is truthy but not a dict, such as a text or a
    non-empty list, raises [AttributeError], not the exception of a missing
    section. *)
Theorem init_section_not_dict (path : option string) (env : ENV)
    (config : gmap string value) (v : value) :
  load (resolve_path path env) = Ok config →
  truthy v = true → is_dict v = false →
  (config !! "source" = Some v →
   init path env = Raise (AttributeError (type_name v) "get")) ∧
  (config !! "destination" = Some v →
   ∀ s sdb, config !! "source" = Some s → _db_info repr s = Ok sdb →
   init path env = Raise (AttributeError (type_name v) "get")).
Proof.
  intros Hload Ht Hd. rewrite (init_loaded _ _ _ _ _ _ _ Hload). split.
  - intros Hs. apply configure_source_raise; rewrite Hs; cbn [from_option id];
      [exact Ht | apply db_info_not_dict, Hd].
  - intros Hv s sdb Hs Hsdb.
    eapply configure_destination_raise; try eassumption;
      rewrite Hv; cbn [from_option id]; [exact Ht | apply db_info_not_dict, Hd].
Qed.

(** X18. The entries of [mappings] are read in document order: when the
    endpoints and the entries before an entry are accepted, what that entry
    raises is what the constructor raises; the entries after it are not
    read. *)
Theorem init_mapping_errors_in_order (path : option string) (env : ENV)
    (config : gmap string value) (s d : value) (sdb ddb : SyncConfigDB)
    (before after : list value) (item : value)
    (accepted : list SyncConfigMapping) (e : exception) :
  load (resolve_path path env) = Ok config →
  config !! "source" = Some s → _db_info repr s = Ok sdb →
  config !! "destination" = Some d → _db_info repr d = Ok ddb →
  config !! "mappings" = Some (VList (before ++ item :: after)) →
  mapM (mapping_of_item repr) before = Ok accepted →
  mapping_of_item repr item = Raise e →
  init path env = Raise e.
Proof.
  intros Hload Hs Hsdb Hd Hddb Hm Hb He.
  rewrite (init_loaded _ _ _ _ _ _ _ Hload).
  rewrite (configure_endpoints_Ok repr _ config s d sdb ddb Hs Hsdb Hd Hddb), Hm.
  cbn [from_option id py_iter]. rewrite bind_Ok.
  rewrite (mapM_first_raise _ _ _ _ _ _ Hb He). reflexivity.
Qed.

(** X19. With both endpoints accepted, a document without [mappings], or
    with an empty list, an empty text or an empty dict under it, gives a
    configuration with no mappings. *)
Theorem init_no_mappings (path : option string) (env : ENV)
    (config : gmap string value) (s d : value) (sdb ddb : SyncConfigDB) :
  load (resolve_path path env) = Ok config →
  config !! "source" = Some s → _db_info repr s = Ok sdb →
  config !! "destination" = Some d → _db_info repr d = Ok ddb →
  config !! "mappings" = None ∨ config !! "mappings" = Some (VList []) ∨
    config !! "mappings" = Some (VStr "") ∨ config !! "mappings" = Some (VDict ∅) →
  init path env =
    Ok {| _path := resolve_path path env; _source := sdb; _destination := ddb;
          _mappings := [] |}.
Proof.
  intros Hload Hs Hsdb Hd Hddb Hm.
  rewrite (init_loaded _ _ _ _ _ _ _ Hload).
  rewrite (configure_endpoints_Ok repr _ config s d sdb ddb Hs Hsdb Hd Hddb).
  destruct Hm as [-> | [-> | [-> | ->]]]; reflexivity.
Qed.

(** X20. With both endpoints accepted, a [mappings] that is [None], a
    boolean or a number raises [TypeError], and one that is a non-empty
    text or a non-empty dict raises [AttributeError]: its first item is a
    string. *)
Theorem init_mappings_not_list (path : option string) (env : ENV)
    (config : gmap string value) (s d : value) (sdb ddb : SyncConfigDB)
    (v : value) :
  load (resolve_path path env) = Ok config →
  config !! "source" = Some s → _db_info repr s = Ok sdb →
  config !! "destination" = Some d → _db_info repr d = Ok ddb →
  config !! "mappings" = Some v →
  (not_iterable v = true → init path env = Raise (TypeError (type_name v))) ∧
  ((∃ t, v = VStr t ∧ t ≠ "") ∨ (∃ m, v = VDict m ∧ m ≠ ∅) →
   init path env = Raise (AttributeError "str" "get")).
Proof.
  intros Hload Hs Hsdb Hd Hddb Hm.
  rewrite (init_loaded _ _ _ _ _ _ _ Hload).
  rewrite (configure_endpoints_Ok repr _ config s d sdb ddb Hs Hsdb Hd Hddb), Hm.
  cbn [from_option id]. split.
  - intros Hv. rewrite (py_iter_not_iterable v Hv). reflexivity.
  - intros [(t & -> & Ht) | (m & -> & Hne)].
    + destruct t as [|c t]; [congruence|]. reflexivity.
    + cbn [py_iter]. destruct (map_to_list m) as [|[k x] l] eqn:E.
      * apply map_to_list_empty_iff in E. congruence.
      * reflexivity.
Qed.

(** X21. A document is accepted as soon as both endpoints and every entry
    of [mappings] are: the configuration holds the resolved path, the two
    endpoints and the mappings of the entries, in the order of the
    entries. *)
Theorem init_accepts (path : option string) (env : ENV)
    (config : gmap string value) (s d : value) (sdb ddb : SyncConfigDB)
    (items : list value) (mps : list SyncConfigMapping) :
  load (resolve_path path env) = Ok config →
  config !! "source" = Some s → _db_info repr s = Ok sdb →
  config !! "destination" = Some d → _db_info repr d = Ok ddb →
  config !! "mappings" = Some (VList items) →
  Forall2 (λ item mp, mapping_of_item repr item = Ok mp) items mps →
  init path env =
    Ok {| _path := resolve_path path env; _source := sdb; _destination := ddb;
          _mappings := mps |}.
Proof.
  intros Hload Hs Hsdb Hd Hddb Hm Hall.
  rewrite (init_loaded _ _ _ _ _ _ _ Hload).
  rewrite (configure_endpoints_Ok repr _ config s d sdb ddb Hs Hsdb Hd Hddb), Hm.
  cbn [from_option id py_iter]. rewrite bind_Ok.
  rewrite (mapM_Forall2_Ok _ _ _ Hall). reflexivity.
Qed.

(** X22. A returned configuration has one mapping for each entry of the
    list under [mappings], at the same position. *)
Theorem init_mappings_order (path : option string) (env : ENV)
    (config : gmap string value) (items : list value) (cfg : ETLSyncConfig) :
  load (resolve_path path env) = Ok config →
  config !! "mappings" = Some (VList items) →
  init path env = Ok cfg →
  List.length (Property.mappings cfg) = List.length items ∧
  ∀ i item, items !! i = Some item →
    ∃ mp, Property.mappings cfg !! i = Some mp ∧
          mapping_of_item repr item = Ok mp.
Proof.
  intros Hload Hm H. rewrite (init_loaded _ _ _ _ _ _ _ Hload) in H.
  apply configure_Ok_inv in H as (items' & Hit & Hms).
  rewrite Hm in Hit. cbn in Hit. injection Hit as <-.
  apply mapM_Ok_Forall2 in Hms. unfold Property.mappings. split.
  - symmetry. eapply Forall2_length, Hms.
  - intros i item Hi.
    destruct (Forall2_lookup_l _ _ _ _ _ Hms Hi) as (mp & Hmp & Hok). eauto.
Qed.

(** X23. The endpoints of a returned configuration were read from
    sections that are present in the loaded document, are dicts and hold
    the three required keys. *)
Theorem init_Ok_endpoints (path : option string) (env : ENV) (cfg : ETLSyncConfig) :
  init path env = Ok cfg →
  ∃ config s d,
    load (resolve_path path env) = Ok config ∧
    config !! "source" = Some (VDict s) ∧
    config !! "destination" = Some (VDict d) ∧
    (∀ k, k ∈ required_keys → is_Some (s !! k) ∧ is_Some (d !! k)) ∧
    _db_info repr (VDict s) = Ok (Property.source cfg) ∧
    _db_info repr (VDict d) = Ok (Property.destination cfg).
Proof.
  intros H. apply init_Ok_loaded in H as (config & Hload & H).
  apply configure_Ok_sections in H as (s & d & Hs & Hsdb & Hd & Hddb).
  exists config, s, d. repeat split; try assumption.
  - apply db_info_Ok_iff in Hsdb as (x & y & z & E1 & E2 & E3 & _).
    unfold required_keys in H. set_unfold in H.
    destruct H as [-> | [-> | [-> | []]]]; eauto.
  - apply db_info_Ok_iff in Hddb as (x & y & z & E1 & E2 & E3 & _).
    unfold required_keys in H. set_unfold in H.
    destruct H as [-> | [-> | [-> | []]]]; eauto.
Qed.


(** X25. Every configuration can be loaded: the constructor returns [cfg]
    on a file at the path of [cfg] whose document gives the endpoints and
    the tables of [cfg] as strings and lists of strings.  The same holds,
    part by part, for [_db_info], [_table_info] and the entries of
    [mappings]. *)
Theorem init_config_document (env : ENV) (cfg : ETLSyncConfig) (text : string) :
  path_exists (_path cfg) = true →
  open_r (_path cfg) = Ok text →
  safe_load text = Ok (VDict (config_document cfg)) →
  init (Some (_path cfg)) env = Ok cfg ∧
  (∀ db, _db_info repr (VDict (db_section db)) = Ok db) ∧
  (∀ t, _table_info repr (VDict (table_section t)) = Ok t) ∧
  (∀ mp, mapping_of_item repr (mapping_item mp) = Ok mp).
Proof.
  intros He Ho Hl.
  split; [|split; [apply db_info_db_section|split;
             [apply table_info_table_section|apply mapping_of_item_mapping_item]]].
  rewrite (init_loaded _ _ _ _ (Some (_path cfg)) env (config_document cfg)
             (load_dict _ _ _ _ _ _ He Ho Hl)).
  cbn [resolve_path].
  rewrite (configure_endpoints_Ok repr _ (config_document cfg)
             (VDict (db_section (_source cfg))) (VDict (db_section (_destination cfg)))
             (_source cfg) (_destination cfg));
    try apply db_info_db_section; try reflexivity.
  unfold config_document.
  rewrite !lookup_insert_ne by discriminate. rewrite lookup_singleton_eq.
  cbn [from_option id py_iter]. rewrite bind_Ok.
  rewrite (mapM_fmap_Ok _ _ _ (mapping_of_item_mapping_item repr)).
  destruct cfg; reflexivity.
Qed.

End InitProperties.

Lemma init_endpoint_errors_first_witness :
  example_init (<["source" := VDict {["host" := VStr "h"]}]>
                  {["mappings" := VInt 3]}) = Raise (KeyError "database") ∧
  example_init (<["source" := example_endpoint]>
                  {["destination" := VDict {["database" := VStr "etl"]}]}) =
    Raise (KeyError "user").
Proof.
  split.
  - eapply (proj1 (init_endpoint_errors_first (λ _, Ok "") (λ _, true) (λ _, Ok "")
                     (λ _, Ok (VDict (<["source" := VDict {["host" := VStr "h"]}]>
                                        {["mappings" := VInt 3]})))
                     None LOCAL _ eq_refl)); reflexivity.
  - eapply (proj2 (init_endpoint_errors_first (λ _, Ok "") (λ _, true) (λ _, Ok "")
                     (λ _, Ok (VDict (<["source" := example_endpoint]>
                        {["destination" := VDict {["database" := VStr "etl"]}]})))
                     None LOCAL _ eq_refl)); reflexivity.
Defined.

Lemma init_section_not_dict_witness :
  example_init {["source" := VStr "postgres://etl"]} =
    Raise (AttributeError "str" "get") ∧
  example_init (<["source" := example_endpoint]>
                  {["destination" := VList [VInt 1]]}) =
    Raise (AttributeError "list" "get").
Proof.
  split.
  - apply (proj1 (init_section_not_dict (λ _, Ok "") (λ _, true) (λ _, Ok "")
                    (λ _, Ok (VDict {["source" := VStr "postgres://etl"]}))
                    None LOCAL _ (VStr "postgres://etl") eq_refl eq_refl eq_refl)).
    reflexivity.
  - eapply (proj2 (init_section_not_dict (λ _, Ok "") (λ _, true) (λ _, Ok "")
                     (λ _, Ok (VDict (<["source" := example_endpoint]>
                                        {["destination" := VList [VInt 1]]})))
                     None LOCAL _ (VList [VInt 1]) eq_refl eq_refl eq_refl));
      reflexivity.
Defined.

Lemma init_mapping_errors_in_order_witness :
  example_init (example_document
                  [example_entry; VStr "orders"; VDict example_entry_no_destination]) =
    Raise (AttributeError "str" "get").
Proof.
  eapply (init_mapping_errors_in_order (λ _, Ok "") (λ _, true) (λ _, Ok "")
            (λ _, Ok (VDict (example_document
               [example_entry; VStr "orders"; VDict example_entry_no_destination])))
            None LOCAL _ example_endpoint example_endpoint _ _
            [example_entry] [VDict example_entry_no_destination] (VStr "orders"));
    reflexivity.
Defined.

Lemma init_no_mappings_witness :
  ∃ cfg, example_init (<["source" := example_endpoint]>
                         {["destination" := example_endpoint]}) = Ok cfg ∧
         _mappings cfg = [].
Proof.
  eexists. split.
  - eapply (init_no_mappings (λ _, Ok "") (λ _, true) (λ _, Ok "")
              (λ _, Ok (VDict (<["source" := example_endpoint]>
                                 {["destination" := example_endpoint]})))
              None LOCAL _ example_endpoint example_endpoint);
      try reflexivity.
    left. reflexivity.
  - reflexivity.
Defined.

Lemma init_mappings_not_list_witness :
  example_init (example_document_with VNone) = Raise (TypeError "NoneType") ∧
  example_init (example_document_with (VDict {["orders" := VStr "orders_copy"]})) =
    Raise (AttributeError "str" "get").
Proof.
  split.
  - destruct (init_mappings_not_list (λ _, Ok "") (λ _, true) (λ _, Ok "")
              (λ _, Ok (VDict (example_document_with VNone)))
              None LOCAL (example_document_with VNone)
              example_endpoint example_endpoint example_db example_db
              VNone) as [H _]; [reflexivity..|].
    apply H. reflexivity.
  - destruct (init_mappings_not_list (λ _, Ok "") (λ _, true) (λ _, Ok "")
              (λ _, Ok (VDict (example_document_with
                                 (VDict {["orders" := VStr "orders_copy"]}))))
              None LOCAL
              (example_document_with (VDict {["orders" := VStr "orders_copy"]}))
              example_endpoint example_endpoint example_db example_db
              (VDict {["orders" := VStr "orders_copy"]})) as [_ H];
      [reflexivity..|].
    apply H. right. eexists. split; [reflexivity|].
    intros E. apply (f_equal (λ m : gmap string value, m !! "orders")) in E.
    vm_compute in E. discriminate E.
Defined.

Lemma init_accepts_witness :
  ∃ cfg, example_init (example_document [example_entry]) = Ok cfg ∧
         table <$> (source <$> _mappings cfg) = ["a"].
Proof.
  eexists. split.
  - eapply (init_accepts (λ _, Ok "") (λ _, true) (λ _, Ok "")
              (λ _, Ok (VDict (example_document [example_entry])))
              None LOCAL _ example_endpoint example_endpoint _ _ [example_entry]);
      try reflexivity.
    constructor; [reflexivity | constructor].
  - reflexivity.
Defined.

Lemma init_mappings_order_witness :
  ∃ cfg, example_init (example_document [example_entry; example_entry]) = Ok cfg ∧
         List.length (Property.mappings cfg) = 2%nat.
Proof.
  destruct (example_init (example_document [example_entry; example_entry]))
    as [cfg|e] eqn:E; [|vm_compute in E; discriminate].
  exists cfg. split; [reflexivity|].
  exact (proj1 (init_mappings_order (λ _, Ok "") (λ _, true) (λ _, Ok "")
                  (λ _, Ok (VDict (example_document [example_entry; example_entry])))
                  None LOCAL _ [example_entry; example_entry] cfg
                  eq_refl eq_refl E)).
Defined.

Lemma init_Ok_endpoints_witness :
  ∃ cfg (config s d : gmap string value),
    example_init (example_document []) = Ok cfg ∧
    config !! "source" = Some (VDict s) ∧
    config !! "destination" = Some (VDict d) ∧
    _db_info (λ _, Ok "") (VDict s) = Ok (Property.source cfg).
Proof.
  destruct (example_init (example_document [])) as [cfg|e] eqn:E;
    [|vm_compute in E; discriminate].
  destruct (init_Ok_endpoints (λ _, Ok "") (λ _, true) (λ _, Ok "")
              (λ _, Ok (VDict (example_document []))) None LOCAL cfg E)
    as (config & s & d & _ & Hs & Hd & _ & Hsdb & _).
  exists cfg, config, s, d. repeat split; assumption.
Defined.


Lemma init_config_document_witness :
  let cfg :=
    {| _path := "job.yml";
       _source := {| host := "a"; port := "1"; database := "x"; user := "u";
                     password := "p" |};
       _destination := {| host := "b"; port := "2"; database := "y"; user := "v";
                          password := "q" |};
       _mappings := [ {| source := {| schema := "s"; table := "t";
                                      columns := ["c1"; "c2"]; pk := ["c1"] |};
                         destination := {| schema := "public"; table := "t2";
                                           columns := []; pk := [] |} |} ] |} in
  __init__ (λ _, Ok "") (λ _, true) (λ _, Ok "") (λ _, Ok (VDict (config_document cfg)))
    (Some "job.yml") PROD = Ok cfg.
Proof.
  intros cfg.
  exact (proj1 (init_config_document (λ _, Ok "") (λ _, true) (λ _, Ok "")
                  (λ _, Ok (VDict (config_document cfg))) PROD cfg ""
                  eq_refl eq_refl eq_refl)).
Defined.

(** ** main *)

Section MainProperties.

Context (repr : value → result string) (repr_str : string → string).
Context (path_exists : string → bool).
Context (open_r : string → result string) (safe_load : string → result value).

Local Abbreviation init := (__init__ repr path_exists open_r safe_load).
Local Abbreviation run := (main repr repr_str path_exists open_r safe_load).

Lemma main_unfold :
  run = match init None LOCAL with
        | Ok etl_config => main_report repr_str etl_config
        | Raise e => ["Ошибка загрузки конфигурации: " ++ exception_str repr_str e]
        end.
Proof. reflexivity. Qed.



(** X26. [main] loads the file of the local environment.  When the
    constructor raises, [main] calls [print] once, with the fixed prefix
    followed by the text of the exception, and prints nothing of the
    report: with no local.transform.yml the text names the missing file;
    with a falsy or absent [source] it is the message of line 68; with a
    source that lacks a required key and gives values that [str] turns
    into text, it is the [repr] of the first key that is missing. *)
Theorem main_reports_failure :
  (∀ e, init None LOCAL = Raise e →
        run = ["Ошибка загрузки конфигурации: " ++ exception_str repr_str e]) ∧
  (path_exists "local.transform.yml" = false →
   run = ["Ошибка загрузки конфигурации: Конфиг local.transform.yml не найден"]) ∧
  (∀ config,
     _load_environment_config path_exists open_r safe_load "local.transform.yml" =
       Ok config →
     truthy (default (VDict ∅) (config !! "source")) = false →
     run = ["Ошибка загрузки конфигурации: не указан источник"]) ∧
  (∀ config s k,
     _load_environment_config path_exists open_r safe_load "local.transform.yml" =
       Ok config →
     config !! "source" = Some (VDict s) → s ≠ ∅ →
     first_absent s = Some k →
     (∀ key v, key ∈ db_keys → s !! key = Some v → converts repr v) →
     run = ["Ошибка загрузки конфигурации: " ++ repr_str k]).
Proof.
  rewrite main_unfold. split; [|split; [|split]].
  - intros e ->. reflexivity.
  - intros H.
    rewrite (init_not_loaded repr path_exists open_r safe_load None LOCAL _
               (load_missing_file path_exists open_r safe_load _ H)).
    reflexivity.
  - intros config Hload Hs.
    rewrite (init_loaded repr path_exists open_r safe_load None LOCAL config Hload).
    rewrite (configure_source_falsy repr _ config Hs). reflexivity.
  - intros config s k Hload Hs Hne Hk Hc.
    rewrite (init_loaded repr path_exists open_r safe_load None LOCAL config Hload).
    rewrite (configure_source_raise repr _ config (KeyError k)).
    + reflexivity.
    + rewrite Hs. cbn [from_option id truthy].
      destruct (map_to_list s) eqn:E; [|reflexivity].
      apply map_to_list_empty_iff in E. contradiction.
    + rewrite Hs. cbn [from_option id].
      apply db_info_first_absent_converts; assumption.
Qed.


End MainProperties.

Lemma main_reports_failure_witness :
  main (λ _, Ok "") (λ s, "'" ++ s ++ "'") (λ _, true) (λ _, Ok "")
       (λ _, Ok (VDict {["source" := example_endpoint]})) =
    ["Ошибка загрузки конфигурации: не указан получатель"] ∧
  main (λ _, Ok "") (λ s, "'" ++ s ++ "'") (λ _, false) (λ _, Ok "")
       (λ _, Ok (VDict ∅)) =
    ["Ошибка загрузки конфигурации: Конфиг local.transform.yml не найден"] ∧
  main (λ _, Ok "") (λ s, "'" ++ s ++ "'") (λ _, true) (λ _, Ok "")
       (λ _, Ok (VDict {["source" := VList []]})) =
    ["Ошибка загрузки конфигурации: не указан источник"] ∧
  main (λ _, Ok "") (λ s, "'" ++ s ++ "'") (λ _, true) (λ _, Ok "")
       (λ _, Ok (VDict {["source" := VDict {["database" := VStr "etl"]}]})) =
    ["Ошибка загрузки конфигурации: 'user'"].
Proof.
  split; [|split; [|split]].
  - exact (proj1 (main_reports_failure (λ _, Ok "") (λ s, "'" ++ s ++ "'") (λ _, true)
                    (λ _, Ok "") (λ _, Ok (VDict {["source" := example_endpoint]})))
                 (ETLSyncConfigException "не указан получатель") eq_refl).
  - exact (proj1 (proj2 (main_reports_failure (λ _, Ok "") (λ s, "'" ++ s ++ "'")
                    (λ _, false) (λ _, Ok "") (λ _, Ok (VDict ∅)))) eq_refl).
  - exact (proj1 (proj2 (proj2 (main_reports_failure (λ _, Ok "")
                    (λ s, "'" ++ s ++ "'") (λ _, true) (λ _, Ok "")
                    (λ _, Ok (VDict {["source" := VList []]})))))
                 {["source" := VList []]} eq_refl eq_refl).
  - apply (proj2 (proj2 (proj2 (main_reports_failure (λ _, Ok "")
                    (λ s, "'" ++ s ++ "'") (λ _, true) (λ _, Ok "")
                    (λ _, Ok (VDict {["source" := VDict {["database" := VStr "etl"]}]})))))
                 {["source" := VDict {["database" := VStr "etl"]}]}
                 {["database" := VStr "etl"]} "user").
    + reflexivity.
    + reflexivity.
    + intros E. apply (f_equal (λ m : gmap string value, m !! "database")) in E.
      vm_compute in E. discriminate E.
    + reflexivity.
    + intros key v _ Hv.
      destruct (decide (key = "database")) as [->|Hd];
        [vm_compute in Hv; injection Hv as <-; apply converts_VStr|].
      rewrite lookup_singleton_ne in Hv by congruence. discriminate Hv.
Defined.

